(** * Verification of the dss_browser discovery core

    Shallow embedding of
    - [backend/storage/servers.py]         (the sqlite-backed [ServerManager]),
    - [backend/dss_query.py]               (the DSS wire-protocol client),
    - [backend/network/dynamic_servers.py] ([validate_and_add_server]).

    The [servers] table is modelled as the list of its rows in rowid order
    together with the AUTOINCREMENT counter; each SQL statement becomes a
    function on that state.  [datetime.now()] is passed in as an explicit
    timestamp argument.  Python [str] values are sequences of code points
    ([list Z]); Python [bytes] are lists of integers in [0, 256). *)

From Stdlib Require Import List ZArith Lia String Ascii Bool Permutation Sorting.Sorted.
Import ListNotations.
Open Scope Z_scope.

(** Python [str]: a sequence of Unicode code points. *)
Definition text := list Z.

(** A Python string literal (ASCII) as a [text]. *)
Fixpoint str (s : string) : text :=
  match s with
  | EmptyString => []
  | String c s' => Z.of_nat (nat_of_ascii c) :: str s'
  end.

Definition text_eqb (a b : text) : bool :=
  if list_eq_dec Z.eq_dec a b then true else false.

Definition timestamp := Z.

(** SQL [COALESCE(a, b)]. *)
Definition coalesce {A} (a b : option A) : option A :=
  match a with Some _ => a | None => b end.

Module Servers.

(** One row of the [servers] table (see [_init_db]); nullable columns are
    [option]s.  [query_failures] has [DEFAULT 0] and no statement of the
    module ever stores NULL in it. *)
Record row := mk_row {
  id : Z;
  ip : text;
  port : Z;
  name : option text;
  info : option text;
  news : option text;
  players : option Z;
  max_players : option Z;
  icon : option (list Z);
  website : option text;
  source : text;
  trusted : bool;
  important : bool;
  last_seen : option timestamp;
  last_queried : option timestamp;
  query_failures : Z;
  added_date : timestamp
}.

(** The table: rows in rowid order and the AUTOINCREMENT counter. *)
Record db := mk_db { rows : list row; next_id : Z }.

Definition key (r : row) : text * Z := (ip r, port r).

(** [WHERE ip = ? AND port = ?] *)
Definition key_is (ip0 : text) (port0 : Z) (r : row) : bool :=
  text_eqb (ip r) ip0 && (port r =? port0).

(** [UPDATE servers SET ... WHERE p]: *)
Definition update_where (p : row -> bool) (f : row -> row) (st : db) : db :=
  mk_db (map (fun r => if p r then f r else r) (rows st)) (next_id st).

(** [get_server]: [SELECT * FROM servers WHERE ip = ? AND port = ?],
    first row. *)
Definition get_server (st : db) (ip0 : text) (port0 : Z) : option row :=
  find (key_is ip0 port0) (rows st).

(** The [CASE] of the [ON CONFLICT] clause of [add_server]:
    [excluded] is the new value, [existing] the stored one. *)
Definition merged_source (existing excluded : text) : text :=
  if text_eqb excluded (str "favorite") then str "favorite"
  else if text_eqb existing (str "favorite") then str "favorite"
  else excluded.

(** [ON CONFLICT(ip, port) DO UPDATE SET ...] applied to the stored row. *)
Definition upsert_row (src : text) (tr im : bool) (now : timestamp)
    (web : option text) (r : row) : row :=
  mk_row (id r) (ip r) (port r) (name r) (info r) (news r)
    (players r) (max_players r) (icon r)
    (coalesce web (website r))
    (merged_source (source r) src) tr im
    (Some now) (last_queried r) (query_failures r) (added_date r).

(** [add_server(ip, port, source, trusted, important, website)]:
    [INSERT ... ON CONFLICT(ip, port) DO UPDATE ... RETURNING id].
    [now] is the [datetime.now()] bound to [last_seen]; [added] is the
    [CURRENT_TIMESTAMP] the column default gives [added_date] (UTC, whole
    seconds), an independent value.  SQLite draws a rowid from the
    AUTOINCREMENT counter before it detects the conflict, so the counter
    advances on both paths. *)
Definition add_server (st : db) (ip0 : text) (port0 : Z) (src : text)
    (tr im : bool) (web : option text) (now added : timestamp) : db * Z :=
  match get_server st ip0 port0 with
  | Some r =>
      let st' := update_where (key_is ip0 port0) (upsert_row src tr im now web) st in
      (mk_db (rows st') (next_id st + 1), id r)
  | None =>
      let r := mk_row (next_id st) ip0 port0 None None None None None None
                 web src tr im (Some now) None 0 added in
      (mk_db (rows st ++ [r]) (next_id st + 1), next_id st)
  end.

(** The dictionary returned by [query_dss], read with [.get]. *)
Record server_info := mk_info {
  si_name : option text;
  si_info : option text;
  si_news : option text;
  si_players : option Z;
  si_max_players : option Z;
  si_icon : option (list Z)
}.

Definition success_row (si : server_info) (now : timestamp) (r : row) : row :=
  mk_row (id r) (ip r) (port r) (si_name si) (si_info si) (si_news si)
    (si_players si) (si_max_players si) (si_icon si) (website r)
    (source r) (trusted r) (important r) (last_seen r)
    (Some now) 0 (added_date r).

(** [update_server_info(ip, port, server_info)]. *)
Definition update_server_info (st : db) (ip0 : text) (port0 : Z)
    (si : server_info) (now : timestamp) : db :=
  update_where (key_is ip0 port0) (success_row si now) st.

Definition failure_row (now : timestamp) (r : row) : row :=
  mk_row (id r) (ip r) (port r) (name r) (info r) (news r)
    (players r) (max_players r) (icon r) (website r)
    (source r) (trusted r) (important r) (last_seen r)
    (Some now) (query_failures r + 1) (added_date r).

(** [mark_query_failure(ip, port)]. *)
Definition mark_query_failure (st : db) (ip0 : text) (port0 : Z)
    (now : timestamp) : db :=
  update_where (key_is ip0 port0) (failure_row now) st.

Definition with_source (s : text) (r : row) : row :=
  mk_row (id r) (ip r) (port r) (name r) (info r) (news r)
    (players r) (max_players r) (icon r) (website r)
    s (trusted r) (important r) (last_seen r)
    (last_queried r) (query_failures r) (added_date r).

(** [set_favorite(ip, port, is_favorite)]. *)
Definition set_favorite (st : db) (ip0 : text) (port0 : Z)
    (is_favorite : bool) : db :=
  if is_favorite then
    update_where (key_is ip0 port0) (with_source (str "favorite")) st
  else
    update_where
      (fun r => key_is ip0 port0 r && text_eqb (source r) (str "favorite"))
      (with_source (str "manual")) st.

(** The [WHERE] clause of [cleanup_failed_servers]. *)
Definition evictable (max_failures : Z) (r : row) : bool :=
  text_eqb (source r) (str "dynamic") && (max_failures <=? query_failures r).

(** [cleanup_failed_servers(max_failures)]:
    [DELETE ... WHERE source = 'dynamic' AND query_failures >= ?
     RETURNING ip, port]. *)
Definition cleanup_failed_servers (st : db) (max_failures : Z)
    : db * list (text * Z) :=
  (mk_db (filter (fun r => negb (evictable max_failures r)) (rows st))
         (next_id st),
   map key (filter (evictable max_failures) (rows st))).

(** SQLite's [LIKE] operator (no ESCAPE clause): ['%'] (37) matches any
    sequence of characters, ['_'] (95) any single character, every other
    character matches the same character after folding ASCII upper case to
    lower case; SQLite's default [LIKE] is case-insensitive for ASCII only. *)
Definition ascii_lower (c : Z) : Z :=
  if (65 <=? c) && (c <=? 90) then c + 32 else c.

Fixpoint like (pat s : text) : bool :=
  match pat with
  | [] => match s with [] => true | _ => false end
  | c :: pat' =>
      if c =? 37 then
        (fix any (s : text) : bool :=
           like pat' s || match s with [] => false | _ :: s' => any s' end) s
      else
        match s with
        | [] => false
        | x :: s' =>
            ((c =? 95) || (ascii_lower c =? ascii_lower x)) && like pat' s'
        end
  end.

(** [col LIKE pat] in a [WHERE] clause: a NULL column does not match. *)
Definition like_col (pat : text) (v : option text) : bool :=
  match v with Some s => like pat s | None => false end.

(** [ORDER BY important DESC, trusted DESC, players DESC]; SQLite sorts
    NULL below every integer. *)
Definition opt_lt (a b : option Z) : bool :=
  match a, b with
  | None, Some _ => true
  | Some x, Some y => x <? y
  | _, _ => false
  end.

Definition bool_lt (a b : bool) : bool := negb a && b.

(** [goes_before r y]: [r] sorts strictly before [y]. *)
Definition goes_before (r y : row) : bool :=
  bool_lt (important y) (important r)
  || (Bool.eqb (important r) (important y)
      && (bool_lt (trusted y) (trusted r)
          || (Bool.eqb (trusted r) (trusted y)
              && opt_lt (players y) (players r)))).

Fixpoint insert_sorted (r : row) (l : list row) : list row :=
  match l with
  | [] => [r]
  | y :: l' => if goes_before r y then r :: l else y :: insert_sorted r l'
  end.

(** The sort of the [ORDER BY] clause (ties are left in an order of the
    implementation's choosing; here, an insertion sort). *)
Definition order_by (l : list row) : list row := fold_right insert_sorted [] l.

(** [search_servers(query)]: [WHERE name LIKE ? OR info LIKE ? OR ip LIKE ?]
    with the pattern [f"%{query}%"]. *)
Definition search_matches (pat : text) (r : row) : bool :=
  like_col pat (name r) || like_col pat (info r) || like pat (ip r).

Definition search_servers (st : db) (query : text) : list row :=
  let search_pattern := [37] ++ query ++ [37] in
  order_by (filter (search_matches search_pattern) (rows st)).





(** [get_all_servers(source_filter)]: [if source_filter:] is Python
    truthiness, so [None] and [""] both select every row. *)
Definition get_all_servers (st : db) (source_filter : option text) : list row :=
  match source_filter with
  | Some f =>
      if text_eqb f [] then order_by (rows st)
      else order_by (filter (fun r => text_eqb (source r) f) (rows st))
  | None => order_by (rows st)
  end.

(** [remove_server(ip, port)]: [DELETE FROM servers WHERE ip = ? AND port = ?]. *)
Definition remove_server (st : db) (ip0 : text) (port0 : Z) : db :=
  mk_db (filter (fun r => negb (key_is ip0 port0 r)) (rows st)) (next_id st).

End Servers.

Module Protocol.

(** The exceptions [query_dss] can raise once connected. *)
Inductive exn :=
| ConnectionError                (* [recv_exact]: "Connection closed" *)
| ValueError (msg : string)      (* [parse_whats_up], [bytes.index] *)
| StructError                    (* [struct.unpack_from] / [struct.pack] *)
| IndexError                     (* [msg[0]], [msg[1]] on a short frame *)
| UnicodeEncodeError             (* [str.encode()] on a surrogate *)
| SSLError.                      (* [ctx.wrap_socket]: TLS handshake failed *)

Inductive result (A : Type) :=
| Ok (a : A)
| Err (e : exn).
Arguments Ok {A} a.
Arguments Err {A} e.

(** Protocol constants. *)
Definition LISTING_USERNAME : text := str "__dsslist".
Definition NET_MSG_LISTING : Z := 0.
Definition NET_SVM_WHATS_UP : Z := 1.
Definition NET_SVM_LIST_SERVER : Z := 2.
Definition NET_SI_USE_SSL : Z := 1.

(** ** UTF-8, as CPython decodes and encodes it *)

Definition cont (b : Z) : bool := (128 <=? b) && (b <=? 191).

(** Decode one well-formed UTF-8 sequence at the head of [s]
    (Unicode Table 3-7: no overlong forms, no surrogates, at most U+10FFFF). *)
Definition utf8_step (s : list Z) : option (Z * list Z) :=
  match s with
  | [] => None
  | b0 :: r =>
    if b0 <? 128 then Some (b0, r)
    else if (194 <=? b0) && (b0 <=? 223) then
      match r with
      | b1 :: r' =>
          if cont b1 then Some ((b0 - 192) * 64 + (b1 - 128), r') else None
      | _ => None
      end
    else if (224 <=? b0) && (b0 <=? 239) then
      match r with
      | b1 :: b2 :: r' =>
          let lo := if b0 =? 224 then 160 else 128 in
          let hi := if b0 =? 237 then 159 else 191 in
          if (lo <=? b1) && (b1 <=? hi) && cont b2
          then Some ((b0 - 224) * 4096 + (b1 - 128) * 64 + (b2 - 128), r')
          else None
      | _ => None
      end
    else if (240 <=? b0) && (b0 <=? 244) then
      match r with
      | b1 :: b2 :: b3 :: r' =>
          let lo := if b0 =? 240 then 144 else 128 in
          let hi := if b0 =? 244 then 143 else 191 in
          if (lo <=? b1) && (b1 <=? hi) && cont b2 && cont b3
          then Some ((b0 - 240) * 262144 + (b1 - 128) * 4096
                     + (b2 - 128) * 64 + (b3 - 128), r')
          else None
      | _ => None
      end
    else None
  end.

(** [bytes.decode(errors="ignore")]: ill-formed bytes are dropped.  Every
    step consumes at least one byte, so [length s] steps suffice. *)
Fixpoint decode_ignore_fuel (n : nat) (s : list Z) : text :=
  match n with
  | O => []
  | S n' =>
      match s with
      | [] => []
      | _ :: s' =>
          match utf8_step s with
          | Some (c, r) => c :: decode_ignore_fuel n' r
          | None => decode_ignore_fuel n' s'
          end
      end
  end.

Definition decode_ignore (s : list Z) : text := decode_ignore_fuel (List.length s) s.

(** [bytes.decode()] would succeed (strict UTF-8). *)
Fixpoint utf8_valid_fuel (n : nat) (s : list Z) : bool :=
  match s with
  | [] => true
  | _ :: _ =>
      match n with
      | O => false
      | S n' =>
          match utf8_step s with
          | Some (_, r) => utf8_valid_fuel n' r
          | None => false
          end
      end
  end.

Definition utf8_valid (s : list Z) : bool := utf8_valid_fuel (List.length s) s.

(** The UTF-8 bytes of one code point that is not a surrogate. *)
Definition encode_char (c : Z) : list Z :=
  if c <? 128 then [c]
  else if c <? 2048 then [192 + c / 64; 128 + c mod 64]
  else if c <? 65536 then
    [224 + c / 4096; 128 + (c / 64) mod 64; 128 + c mod 64]
  else
    [240 + c / 262144; 128 + (c / 4096) mod 64; 128 + (c / 64) mod 64;
     128 + c mod 64].

(** The UTF-8 bytes of a string. *)
Definition utf8_bytes (t : text) : list Z := flat_map encode_char t.

(** A surrogate code point (U+D800 to U+DFFF): a Python [str] may hold one,
    UTF-8 has no encoding for it. *)
Definition is_surrogate (c : Z) : bool := (55296 <=? c) && (c <=? 57343).

(** [str.encode()] (strict UTF-8): raises [UnicodeEncodeError] on a string
    holding a surrogate. *)
Definition encode (t : text) : result (list Z) :=
  if existsb is_surrogate t then Err UnicodeEncodeError else Ok (utf8_bytes t).

(** ** [struct] *)

(** Little-endian value of a byte list. *)
Fixpoint le_value (bs : list Z) : Z :=
  match bs with
  | [] => 0
  | b :: bs' => b + 256 * le_value bs'
  end.

(** [struct.unpack_from("<I", buf, off)] (and ["<H"] with [w = 2]). *)
Definition unpack_from (w : nat) (buf : list Z) (off : nat) : result Z :=
  if Nat.leb (off + w) (List.length buf)
  then Ok (le_value (firstn w (skipn off buf)))
  else Err StructError.

(** The four little-endian bytes of a 32-bit value. *)
Definition u32_bytes (x : Z) : list Z :=
  [Z.land x 255; Z.land (Z.shiftr x 8) 255;
   Z.land (Z.shiftr x 16) 255; Z.land (Z.shiftr x 24) 255].

(** [struct.pack("<I", x)]: raises outside [0, 2^32). *)
Definition pack_u32 (x : Z) : result (list Z) :=
  if (0 <=? x) && (x <? 2 ^ 32) then Ok (u32_bytes x) else Err StructError.

(** ** Socket: the bytes still to be received and the bytes sent so far.
    The optional TLS upgrade of [query_dss] is transparent at this level:
    [inbound] and [sent] are the application bytes on either side of it. *)
Record sock := mk_sock { inbound : list Z; sent : list Z }.

Definition M (A : Type) := sock -> result A * sock.

Definition ret {A} (a : A) : M A := fun s => (Ok a, s).
Definition raise {A} (e : exn) : M A := fun s => (Err e, s).
Definition bind {A B} (m : M A) (k : A -> M B) : M B :=
  fun s => match m s with
           | (Ok a, s') => k a s'
           | (Err e, s') => (Err e, s')
           end.
Definition lift {A} (r : result A) : M A :=
  match r with Ok a => ret a | Err e => raise e end.

Notation "x <- m ;; k" := (bind m (fun x => k))
  (at level 61, m at next level, right associativity).

(** [recv_exact(sock, n)]; a negative [n] returns [b""] at once. *)
Definition recv_exact (n : Z) : M (list Z) :=
  fun s =>
    let k := Z.to_nat n in
    if Nat.leb k (List.length (inbound s))
    then (Ok (firstn k (inbound s)), mk_sock (skipn k (inbound s)) (sent s))
    else (Err ConnectionError, mk_sock [] (sent s)).

(** [recv_packet(sock)]. *)
Definition recv_packet : M (list Z) :=
  header <- recv_exact 4 ;;
  let size := le_value header in
  body <- recv_exact (size - 4) ;;
  ret (header ++ body).

(** [sock.sendall(data)]. *)
Definition sendall (data : list Z) : M unit :=
  fun s => (Ok tt, mk_sock (inbound s) (sent s ++ data)).

(** [parse_whats_up(pkt)]: [(flags, version, netver)]. *)
Definition parse_whats_up (pkt : list Z) : result (Z * Z * text) :=
  let msg := skipn 4 pkt in
  match msg with
  | [] => Err IndexError
  | t :: _ =>
      if negb (t =? NET_SVM_WHATS_UP) then Err (ValueError "Expected WHATS_UP")
      else
        match msg with
        | _ :: flags :: _ =>
            match unpack_from 4 msg 2 with
            | Ok version => Ok (flags, version, decode_ignore (skipn 6 msg))
            | Err e => Err e
            end
        | _ => Err IndexError
        end
  end.

(** [build_listing_request(version, netver)]: the payload is built in the
    order of the source, [struct.pack], then [netver.encode()], then
    [LISTING_USERNAME.encode()], then the length prefix. *)
Definition build_listing_request (version : Z) (netver : text)
    : result (list Z) :=
  match pack_u32 version with
  | Err e => Err e
  | Ok v =>
      match encode netver with
      | Err e => Err e
      | Ok nv =>
          match encode LISTING_USERNAME with
          | Err e => Err e
          | Ok user =>
              let payload := [NET_MSG_LISTING] ++ v ++ (nv ++ [0]) ++ [1] ++ user in
              match pack_u32 (4 + Z.of_nat (List.length payload)) with
              | Err e => Err e
              | Ok h => Ok (h ++ payload)
              end
          end
      end
  end.

(** [buf.index(0, off)]. *)
Fixpoint index0_from (buf : list Z) (i : nat) : option nat :=
  match buf with
  | [] => None
  | b :: buf' => if b =? 0 then Some i else index0_from buf' (S i)
  end.

(** [read_cstring(buf, off)]. *)
Definition read_cstring (buf : list Z) (off : nat) : result (text * nat) :=
  match index0_from (skipn off buf) off with
  | None => Err (ValueError "subsection not found")
  | Some e => Ok (decode_ignore (firstn (e - off) (skipn off buf)), S e)
  end.

(** The dictionary built by [parse_list_server]. *)
Record listing := mk_listing {
  l_name : text;
  l_info : text;
  l_news : text;
  l_players : Z;
  l_max_players : Z;
  l_icon : list Z
}.

Definition rbind {A B} (r : result A) (k : A -> result B) : result B :=
  match r with Ok a => k a | Err e => Err e end.

(** [parse_list_server(pkt)]. *)
Definition parse_list_server (pkt : list Z) : result listing :=
  let buf := skipn 5 pkt in
  rbind (read_cstring buf 0) (fun '(name, off) =>
  rbind (read_cstring buf off) (fun '(info, off) =>
  rbind (read_cstring buf off) (fun '(news, off) =>
  rbind (unpack_from 4 buf off) (fun icon_size =>
  let off := (off + 4)%nat in
  let icon := firstn (Z.to_nat icon_size) (skipn off buf) in
  let off := (off + Z.to_nat icon_size)%nat in
  rbind (unpack_from 2 buf off) (fun players =>
  rbind (unpack_from 2 buf (off + 2)) (fun max_players =>
  Ok (mk_listing name info news players max_players icon))))))).

(** [query_dss(host, port)] after [socket.create_connection] succeeded.
    [handshake] is the outcome of [ctx.wrap_socket(sock, server_hostname=host)]
    ([Ok tt], or [Err SSLError] when the TLS handshake fails); it is used only
    when the greeting's flags have [NET_SI_USE_SSL] set. *)
Definition query_dss (handshake : result unit) : M listing :=
  pkt <- recv_packet ;;
  fvn <- lift (parse_whats_up pkt) ;;
  let '(flags, version, netver) := fvn in
  _ <- (if Z.land flags NET_SI_USE_SSL =? 0 then ret tt else lift handshake) ;;
  req <- lift (build_listing_request version netver) ;;
  _ <- sendall req ;;
  pkt <- recv_packet ;;
  lift (parse_list_server pkt).

(** Run [query_dss] against the bytes the server sends. *)
Definition run_query (handshake : result unit) (server_bytes : list Z)
    : result listing * list Z :=
  let '(r, s) := query_dss handshake (mk_sock server_bytes []) in (r, sent s).

(** The listing request, laid out as the protocol table of the spec has it. *)
Definition listing_payload (vb s : list Z) : list Z :=
  [NET_MSG_LISTING] ++ vb ++ (s ++ [0]) ++ [1] ++ utf8_bytes LISTING_USERNAME.

(** [m] never changes what has been sent. *)
Definition keeps_sent {A} (m : M A) : Prop :=
  forall s, sent (snd (m s)) = sent s.

End Protocol.

Module Discovery.
Import Servers Protocol.

(** Events passed to the [on_server_validated] / [on_server_failed]
    callbacks. *)
Inductive event :=
| ServerValidated (ip : text) (port : Z) (si : listing)
| ServerFailed (ip : text) (port : Z) (err : exn).

(** The dictionary [query_dss] returns, as read by [update_server_info]
    through [server_info.get(...)]. *)
Definition to_server_info (l : listing) : server_info :=
  mk_info (Some (l_name l)) (Some (l_info l)) (Some (l_news l))
    (Some (l_players l)) (Some (l_max_players l)) (Some (l_icon l)).

(** [validate_and_add_server(ip, port, trusted, important, website)]:
    [outcome] is what [self.query_function(ip, port, timeout)] returned or
    raised.  The store methods read the clock themselves: [t_seen] is the
    [datetime.now()] of [add_server], [t_added] the [CURRENT_TIMESTAMP] of its
    [INSERT], and [t_queried] the [datetime.now()] of [update_server_info]
    (on success) or of [mark_query_failure] (on failure). *)
Definition validate_and_add_server (st : db) (ip0 : text) (port0 : Z)
    (tr im : bool) (web : option text) (outcome : result listing)
    (t_seen t_added t_queried : timestamp) : bool * db * list event :=
  match outcome with
  | Ok si =>
      let '(st1, _server_id) :=
        add_server st ip0 port0 (str "dynamic") tr im web t_seen t_added in
      let st2 := update_server_info st1 ip0 port0 (to_server_info si) t_queried in
      (true, st2, [ServerValidated ip0 port0 si])
  | Err e =>
      let st' :=
        match get_server st ip0 port0 with
        | Some _ => mark_query_failure st ip0 port0 t_queried
        | None => st
        end in
      (false, st', [ServerFailed ip0 port0 e])
  end.

(** The [for server in servers] loop of [revalidate_all_servers]:
    [query ip port] is what [self.query_function] returned or raised for
    that server during the call. *)
Fixpoint revalidate_loop (servers : list row) (query : text -> Z -> result listing)
    (now : timestamp) (st : db) (success_count failed_count : Z) : db * Z * Z :=
  match servers with
  | [] => (st, success_count, failed_count)
  | server :: rest =>
      match query (ip server) (port server) with
      | Ok si =>
          revalidate_loop rest query now
            (update_server_info st (ip server) (port server)
               (to_server_info si) now)
            (success_count + 1) failed_count
      | Err _ =>
          revalidate_loop rest query now
            (mark_query_failure st (ip server) (port server) now)
            success_count (failed_count + 1)
      end
  end.

(** [revalidate_all_servers()]: the rows of [get_all_servers()] are
    re-queried one after the other; returns the new table and
    [(success_count, failed_count)]. *)
Definition revalidate_all_servers (st : db) (query : text -> Z -> result listing)
    (now : timestamp) : db * (Z * Z) :=
  let '(st', sc, fc) :=
    revalidate_loop (get_all_servers st None) query now st 0 0 in
  (st', (sc, fc)).

(** Whether [query] answered for the server of row [r]. *)
Definition query_ok (query : text -> Z -> result listing) (r : row) : bool :=
  match query (ip r) (port r) with Ok _ => true | Err _ => false end.

(** The row update [revalidate_all_servers] applies for one server. *)
Definition revalidated_row (query : text -> Z -> result listing) (now : timestamp)
    (r : row) : row :=
  match query (ip r) (port r) with
  | Ok si => success_row (to_server_info si) now r
  | Err _ => failure_row now r
  end.

End Discovery.

(** * Sample states and byte streams *)

Module Samples.
Import Servers.

(** A stored favorite, queried once, with a website. *)
Definition row_fav : row :=
  mk_row 1 (str "10.0.0.1") 7777 (Some (str "Alpha")) None None
    (Some 3) (Some 10) None (Some (str "a.org")) (str "favorite")
    true false (Some 5) (Some 6) 2 1.

Definition db_fav : db := mk_db [row_fav] 2.

(** A greeting: [WHATS_UP], flags 0, version 3, network version "1.0". *)
Definition greeting_1_0 : list Z :=
  [13; 0; 0; 0; 1; 0; 3; 0; 0; 0; 49; 46; 48].

(** The same greeting with [NET_SI_USE_SSL] set in its flags. *)
Definition greeting_tls_1_0 : list Z :=
  [13; 0; 0; 0; 1; 1; 3; 0; 0; 0; 49; 46; 48].

(** A greeting whose network-version bytes are [b"\xff"] (not UTF-8). *)
Definition greeting_ff : list Z := [11; 0; 0; 0; 1; 0; 3; 0; 0; 0; 255].

(** A greeting whose message-type byte is 7. *)
Definition greeting_bad_type : list Z :=
  [13; 0; 0; 0; 7; 0; 3; 0; 0; 0; 49; 46; 48].

(** A listing response with message-type byte 7 instead of [LIST_SERVER]:
    name "A", empty info and news, no icon, 5 of 20 players. *)
Definition response_bad_type : list Z :=
  [17; 0; 0; 0; 7; 65; 0; 0; 0; 0; 0; 0; 0; 5; 0; 20; 0].

End Samples.

Module SamplesExtra.
Import Servers Protocol Samples.

(** A dynamic server beside [row_fav], with 4 failed queries behind it. *)
Definition row_dyn : row :=
  mk_row 2 (str "10.0.0.2") 7777 (Some (str "Beta")) None None
    (Some 1) (Some 8) None None (str "dynamic")
    false false (Some 4) (Some 7) 4 3.

Definition db_two : db := mk_db [row_fav; row_dyn] 3.

(** A query function under which only 10.0.0.1 answers. *)
Definition query_sample (ip0 : text) (port0 : Z) : result listing :=
  if text_eqb ip0 (str "10.0.0.1")
  then Ok (mk_listing (str "Alpha") [] [] 4 10 [])
  else Err ConnectionError.

End SamplesExtra.

(** * Properties of the server store *)

Lemma text_eqb_eq (a b : text) : text_eqb a b = true <-> a = b.
Proof.
  unfold text_eqb; destruct (list_eq_dec Z.eq_dec a b); split; congruence.
Qed.

Lemma text_eqb_neq (a b : text) : text_eqb a b = false <-> a <> b.
Proof.
  unfold text_eqb; destruct (list_eq_dec Z.eq_dec a b); split; congruence.
Qed.

Module StoreFacts.
Import Servers.

Lemma find_update_where (p : row -> bool) (f : row -> row) (l : list row) :
  (forall r, p (f r) = p r) ->
  find p (map (fun r => if p r then f r else r) l) = option_map f (find p l).
Proof.
  intros Hf; induction l as [|a l IH]; simpl; [reflexivity|].
  destruct (p a) eqn:E; simpl.
  - rewrite Hf, E; reflexivity.
  - rewrite E; exact IH.
Qed.

Lemma get_update_where (ip0 : text) (port0 : Z) (f : row -> row) (st : db) :
  (forall r, key_is ip0 port0 (f r) = key_is ip0 port0 r) ->
  get_server (update_where (key_is ip0 port0) f st) ip0 port0
  = option_map f (get_server st ip0 port0).
Proof. intros Hf; apply find_update_where; exact Hf. Qed.

Lemma update_where_keys (p : row -> bool) (f : row -> row) (st : db) :
  (forall r, key (f r) = key r) ->
  map key (rows (update_where p f st)) = map key (rows st).
Proof.
  intros Hf; destruct st as [l n]; simpl; induction l as [|a l IH];
    simpl; [reflexivity|].
  rewrite IH; destruct (p a); [rewrite Hf|]; reflexivity.
Qed.

Lemma update_where_noop (p : row -> bool) (f : row -> row) (st : db) :
  (forall r, In r (rows st) -> p r = false) ->
  update_where p f st = st.
Proof.
  intros Hp; destruct st as [l n]; unfold update_where; simpl in *; f_equal.
  induction l as [|a l IH]; simpl; [reflexivity|].
  rewrite (Hp a (or_introl eq_refl)), IH; [reflexivity|].
  intros r Hr; apply Hp; right; exact Hr.
Qed.

Lemma get_none_no_key (st : db) (ip0 : text) (port0 : Z) :
  get_server st ip0 port0 = None ->
  forall r, In r (rows st) -> key_is ip0 port0 r = false.
Proof. intros H r Hr; exact (find_none _ _ H r Hr). Qed.

Lemma add_server_existing st ip0 port0 src tr im web now added r :
  get_server st ip0 port0 = Some r ->
  add_server st ip0 port0 src tr im web now added
  = (mk_db (rows (update_where (key_is ip0 port0) (upsert_row src tr im now web) st))
           (next_id st + 1), id r)
  /\ get_server (fst (add_server st ip0 port0 src tr im web now added)) ip0 port0
     = Some (upsert_row src tr im now web r).
Proof.
  intros H; unfold add_server; rewrite H; split; [reflexivity|].
  change (get_server (update_where (key_is ip0 port0) (upsert_row src tr im now web) st)
            ip0 port0 = Some (upsert_row src tr im now web r)).
  rewrite get_update_where, H; reflexivity.
Qed.

Lemma filter_partition (p : row -> bool) (l : list row) :
  Permutation l (filter (fun r => negb (p r)) l ++ filter p l).
Proof.
  induction l as [|a l IH]; simpl; [constructor|].
  destruct (p a); simpl.
  - apply Permutation_cons_app; exact IH.
  - constructor; exact IH.
Qed.

Lemma evictable_iff N r :
  evictable N r = true <-> source r = str "dynamic" /\ N <= query_failures r.
Proof.
  unfold evictable; rewrite andb_true_iff, text_eqb_eq, Z.leb_le; tauto.
Qed.

(** C1: [add_server] on an existing key merges [source] with the [CASE] of
    its [ON CONFLICT] clause: a stored [favorite] survives an add with
    [source] [dynamic] or [manual]; the result is [favorite] when either side
    is [favorite], and the new [source] otherwise. *)
Theorem add_server_source_sticky st ip0 port0 src tr im web now added r :
  get_server st ip0 port0 = Some r ->
  exists r',
    get_server (fst (add_server st ip0 port0 src tr im web now added)) ip0 port0
      = Some r'
    /\ (source r = str "favorite" ->
        src = str "dynamic" \/ src = str "manual" ->
        source r' = str "favorite")
    /\ (source r = str "favorite" \/ src = str "favorite" ->
        source r' = str "favorite")
    /\ (source r <> str "favorite" -> src <> str "favorite" ->
        source r' = src).
Proof.
  intros H; destruct (add_server_existing st ip0 port0 src tr im web now added r H)
    as [_ Hg].
  eexists; split; [exact Hg|]; unfold upsert_row, merged_source; cbn [source].
  destruct (text_eqb src (str "favorite")) eqn:E1;
  destruct (text_eqb (source r) (str "favorite")) eqn:E2;
  rewrite ?text_eqb_eq, ?text_eqb_neq in E1;
  rewrite ?text_eqb_eq, ?text_eqb_neq in E2;
  repeat split; intros; try reflexivity; try congruence; try tauto.
Qed.

(** C2: [cleanup_failed_servers N] deletes exactly the rows with
    [source = 'dynamic'] and [query_failures >= N], returns their
    [(ip, port)], and keeps every [manual] or [favorite] row. *)
Theorem cleanup_failed_servers_exact st N :
  exists gone,
    snd (cleanup_failed_servers st N) = map key gone
    /\ Permutation (rows st) (rows (fst (cleanup_failed_servers st N)) ++ gone)
    /\ (forall r, In r gone ->
          source r = str "dynamic" /\ N <= query_failures r)
    /\ (forall r, In r (rows (fst (cleanup_failed_servers st N))) ->
          ~ (source r = str "dynamic" /\ N <= query_failures r))
    /\ (forall r, In r (rows st) ->
          source r = str "manual" \/ source r = str "favorite" ->
          In r (rows (fst (cleanup_failed_servers st N)))).
Proof.
  exists (filter (evictable N) (rows st)); simpl.
  split; [reflexivity|]. split; [apply filter_partition|].
  split; [|split].
  - intros r Hr; apply filter_In in Hr; apply evictable_iff, Hr.
  - intros r Hr He; apply filter_In in Hr; destruct Hr as [_ Hn].
    apply evictable_iff in He; rewrite He in Hn; discriminate.
  - intros r Hr Hs; apply filter_In; split; [exact Hr|].
    destruct (evictable N r) eqn:E; [|reflexivity].
    apply evictable_iff in E; destruct E as [Ed _].
    destruct Hs as [Hs|Hs]; rewrite Ed in Hs; discriminate.
Qed.

(** C4 (as the code has it): on an existing key [add_server] stores
    [COALESCE(excluded.website, servers.website)]: the stored website is kept
    when the new value is [None], and replaced by the new value otherwise,
    the empty string included. *)
Theorem add_server_website_coalesce st ip0 port0 src tr im web now added r :
  get_server st ip0 port0 = Some r ->
  exists r',
    get_server (fst (add_server st ip0 port0 src tr im web now added)) ip0 port0
      = Some r'
    /\ website r' = coalesce web (website r)
    /\ (web = None -> website r' = website r)
    /\ (forall w, web = Some w -> website r' = Some w).
Proof.
  intros H; destruct (add_server_existing st ip0 port0 src tr im web now added r H)
    as [_ Hg].
  eexists; split; [exact Hg|]; cbn [website upsert_row].
  split; [reflexivity|]; split; intros; subst; reflexivity.
Qed.

(** C9: on an existing key [add_server] changes only [source], [trusted],
    [important], [website] and [last_seen]; it keeps [id] (which it returns),
    the key, the queried fields, [last_queried], [query_failures] and
    [added_date]. *)
Theorem add_server_frame st ip0 port0 src tr im web now added r :
  get_server st ip0 port0 = Some r ->
  snd (add_server st ip0 port0 src tr im web now added) = id r
  /\ exists r',
    get_server (fst (add_server st ip0 port0 src tr im web now added)) ip0 port0
      = Some r'
    /\ id r' = id r /\ ip r' = ip r /\ port r' = port r
    /\ name r' = name r /\ info r' = info r /\ news r' = news r
    /\ players r' = players r /\ max_players r' = max_players r
    /\ icon r' = icon r /\ query_failures r' = query_failures r
    /\ added_date r' = added_date r /\ last_queried r' = last_queried r.
Proof.
  intros H; destruct (add_server_existing st ip0 port0 src tr im web now added r H)
    as [He Hg].
  split; [rewrite He; reflexivity|].
  eexists; split; [exact Hg|]; cbn; repeat split.
Qed.

(** C6: [update_server_info] on an existing key resets [query_failures] to 0
    (whatever it was), stores the snapshot's six values and refreshes
    [last_queried]; [mark_query_failure] adds exactly 1 to [query_failures]
    and refreshes [last_queried], and does nothing on a missing key. *)
Theorem apply_success_and_failure st ip0 port0 si now :
  (forall r, get_server st ip0 port0 = Some r ->
     (exists r',
        get_server (update_server_info st ip0 port0 si now) ip0 port0 = Some r'
        /\ query_failures r' = 0
        /\ name r' = si_name si /\ info r' = si_info si /\ news r' = si_news si
        /\ players r' = si_players si /\ max_players r' = si_max_players si
        /\ icon r' = si_icon si /\ last_queried r' = Some now)
     /\ (exists r',
        get_server (mark_query_failure st ip0 port0 now) ip0 port0 = Some r'
        /\ query_failures r' = query_failures r + 1
        /\ last_queried r' = Some now))
  /\ (get_server st ip0 port0 = None ->
      mark_query_failure st ip0 port0 now = st).
Proof.
  split.
  - intros r H; split; eexists.
    + unfold update_server_info; rewrite get_update_where, H;
        [|reflexivity]; split; [reflexivity|]; cbn; repeat split.
    + unfold mark_query_failure; rewrite get_update_where, H;
        [|reflexivity]; split; [reflexivity|]; cbn; repeat split.
  - intros H; apply update_where_noop; apply get_none_no_key; exact H.
Qed.

(** C10: [update_server_info], [mark_query_failure] and [set_favorite] keep
    the list of keys of the table as it is (no row created, none deleted),
    and each of them leaves the table untouched on a missing key. *)
Theorem point_updates_keep_keys st ip0 port0 si now b :
  map key (rows (update_server_info st ip0 port0 si now)) = map key (rows st)
  /\ map key (rows (mark_query_failure st ip0 port0 now)) = map key (rows st)
  /\ map key (rows (set_favorite st ip0 port0 b)) = map key (rows st)
  /\ (get_server st ip0 port0 = None ->
      update_server_info st ip0 port0 si now = st
      /\ mark_query_failure st ip0 port0 now = st
      /\ set_favorite st ip0 port0 b = st).
Proof.
  split; [|split; [|split]].
  - apply update_where_keys; reflexivity.
  - apply update_where_keys; reflexivity.
  - unfold set_favorite; destruct b; apply update_where_keys; reflexivity.
  - intros H; pose proof (get_none_no_key st ip0 port0 H) as Hn.
    split; [|split].
    + apply update_where_noop; exact Hn.
    + apply update_where_noop; exact Hn.
    + unfold set_favorite; destruct b; apply update_where_noop;
        intros r Hr; [exact (Hn r Hr)|rewrite (Hn r Hr); reflexivity].
Qed.

Lemma insert_sorted_perm (r : row) (l : list row) :
  Permutation (insert_sorted r l) (r :: l).
Proof.
  induction l as [|y l IH]; simpl; [reflexivity|].
  destruct (goes_before r y); [reflexivity|].
  eapply perm_trans; [apply perm_skip, IH|apply perm_swap].
Qed.

Lemma order_by_perm (l : list row) : Permutation (order_by l) l.
Proof.
  induction l as [|r l IH]; simpl; [reflexivity|].
  eapply perm_trans; [apply insert_sorted_perm|apply perm_skip, IH].
Qed.








End StoreFacts.

Module DiscoveryFacts.
Import Servers Protocol Discovery.

(** C7: when the query raised, [validate_and_add_server] returns [False];
    without a stored row for the key the table is left exactly as it was,
    and with one the only change is [mark_query_failure] on that key. *)
Theorem validate_failure_leaves_no_trace st ip0 port0 tr im web e
    t_seen t_added t_queried :
  let res := validate_and_add_server st ip0 port0 tr im web (Err e)
               t_seen t_added t_queried in
  fst (fst res) = false
  /\ (get_server st ip0 port0 = None -> snd (fst res) = st)
  /\ (forall r, get_server st ip0 port0 = Some r ->
      snd (fst res) = mark_query_failure st ip0 port0 t_queried).
Proof.
  intros res; unfold res; cbn [validate_and_add_server fst snd].
  split; [reflexivity|split].
  - intros H; rewrite H; reflexivity.
  - intros r H; rewrite H; reflexivity.
Qed.

End DiscoveryFacts.

(** * Properties of the protocol client *)

Module ProtocolFacts.
Import Protocol.

Ltac bool_to_prop :=
  repeat match goal with
  | H : (_ && _) = true |- _ => apply andb_prop in H; destruct H
  | H : (_ && _) = false |- _ => apply andb_false_iff in H
  | H : (_ <? _) = true |- _ => apply Z.ltb_lt in H
  | H : (_ <? _) = false |- _ => apply Z.ltb_ge in H
  | H : (_ <=? _) = true |- _ => apply Z.leb_le in H
  | H : (_ <=? _) = false |- _ => apply Z.leb_gt in H
  | H : (_ =? _) = true |- _ => apply Z.eqb_eq in H
  | H : (_ =? _) = false |- _ => apply Z.eqb_neq in H
  end.

(** Case on the outermost [if] of a hypothesis. *)
Ltac case_if_in H :=
  match type of H with
  | context [if ?c then _ else _] => destruct c eqn:?; cbn beta iota in H
  end.

Lemma utf8_step_encode (s r : list Z) (c : Z) :
  utf8_step s = Some (c, r) ->
  encode_char c ++ r = s /\ (List.length r < List.length s)%nat.
Proof.
  intros H; unfold utf8_step, cont in H.
  destruct s as [|b0 [|b1 [|b2 [|b3 r']]]]; [discriminate| | | |];
    cbv zeta in H; repeat (case_if_in H; try discriminate);
    injection H as <- <-;
    repeat (bool_to_prop;
            try match goal with
                | E : context [if ?c then _ else _] |- _ =>
                    destruct c eqn:?; cbn beta iota in E
                end);
    unfold encode_char;
    repeat match goal with
           | |- context [?a <? ?b] => destruct (Z.ltb_spec a b)
           end;
    try (exfalso; lia);
    (split; [cbn [app]; repeat f_equal; Z.div_mod_to_equations; lia
            |cbn [List.length]; lia]).
Qed.

Lemma encode_decode_fuel (n : nat) (s : list Z) :
  (List.length s <= n)%nat -> utf8_valid_fuel n s = true ->
  utf8_bytes (decode_ignore_fuel n s) = s.
Proof.
  revert s; induction n as [|n IH]; intros s Hlen Hv.
  - destruct s; [reflexivity|discriminate].
  - destruct s as [|b s']; [reflexivity|].
    cbn [utf8_valid_fuel] in Hv; cbn [decode_ignore_fuel].
    destruct (utf8_step (b :: s')) as [[c r]|] eqn:Hs; [|discriminate].
    destruct (utf8_step_encode _ _ _ Hs) as [He Hl].
    cbn [utf8_bytes flat_map]; fold (utf8_bytes (decode_ignore_fuel n r)).
    rewrite IH; [exact He| |exact Hv]; lia.
Qed.

(** Re-encoding what [decode(errors="ignore")] read from valid UTF-8 gives
    the same bytes back. *)
Lemma encode_decode_ignore (s : list Z) :
  utf8_valid s = true -> utf8_bytes (decode_ignore s) = s.
Proof. apply encode_decode_fuel; lia. Qed.

Lemma le_value_u32_bytes (x : Z) :
  0 <= x < 2 ^ 32 -> le_value (u32_bytes x) = x.
Proof.
  intros Hx; unfold u32_bytes; cbn [le_value].
  change 255 with (Z.ones 8); rewrite !Z.land_ones, !Z.shiftr_div_pow2 by lia.
  Z.div_mod_to_equations; lia.
Qed.

Lemma u32_bytes_le_value (b0 b1 b2 b3 : Z) :
  0 <= b0 < 256 -> 0 <= b1 < 256 -> 0 <= b2 < 256 -> 0 <= b3 < 256 ->
  u32_bytes (le_value [b0; b1; b2; b3]) = [b0; b1; b2; b3].
Proof.
  intros H0 H1 H2 H3; unfold u32_bytes; cbn [le_value].
  change 255 with (Z.ones 8); rewrite !Z.land_ones, !Z.shiftr_div_pow2 by lia.
  repeat f_equal; Z.div_mod_to_equations; lia.
Qed.

Lemma take_app (l1 l2 : list Z) :
  firstn (List.length l1) (l1 ++ l2) = l1
  /\ skipn (List.length l1) (l1 ++ l2) = l2.
Proof.
  induction l1 as [|a l1 IH]; simpl; [split; reflexivity|].
  destruct IH as [-> ->]; split; reflexivity.
Qed.

Lemma keeps_sent_bind {A B} (m : M A) (k : A -> M B) :
  keeps_sent m -> (forall a, keeps_sent (k a)) -> keeps_sent (bind m k).
Proof.
  intros Hm Hk s; unfold bind; specialize (Hm s).
  destruct (m s) as [[a|e] s']; simpl in *; [rewrite Hk|]; exact Hm.
Qed.

Lemma keeps_sent_ret {A} (a : A) : keeps_sent (ret a).
Proof. intros s; reflexivity. Qed.

Lemma keeps_sent_lift {A} (r : result A) : keeps_sent (lift r).
Proof. intros s; destruct r; reflexivity. Qed.

Lemma keeps_sent_recv_exact (n : Z) : keeps_sent (recv_exact n).
Proof.
  intros s; unfold recv_exact; destruct (Nat.leb _ _); reflexivity.
Qed.

Lemma keeps_sent_recv_packet : keeps_sent recv_packet.
Proof.
  unfold recv_packet; apply keeps_sent_bind; [apply keeps_sent_recv_exact|].
  intros h; apply keeps_sent_bind; [apply keeps_sent_recv_exact|].
  intros b; apply keeps_sent_ret.
Qed.

Lemma bind_ok {A B} (m : M A) (k : A -> M B) s a s' :
  m s = (Ok a, s') -> bind m k s = k a s'.
Proof. intros H; unfold bind; rewrite H; reflexivity. Qed.

Lemma bind_err {A B} (m : M A) (k : A -> M B) s e s' :
  m s = (Err e, s') -> bind m k s = (Err e, s').
Proof. intros H; unfold bind; rewrite H; reflexivity. Qed.

Lemma run_query_sent (hs : result unit) (b : list Z) :
  snd (run_query hs b) = sent (snd (query_dss hs (mk_sock b []))).
Proof. unfold run_query; destruct (query_dss _ _); reflexivity. Qed.

Lemma run_query_result (hs : result unit) (b : list Z) :
  fst (run_query hs b) = fst (query_dss hs (mk_sock b [])).
Proof. unfold run_query; destruct (query_dss _ _); reflexivity. Qed.

(** The TLS step of [query_dss] when the flags do not ask for TLS or the
    handshake succeeds. *)
Lemma tls_step_ok (flags : Z) (hs : result unit) (sk : sock) :
  Z.land flags NET_SI_USE_SSL = 0 \/ hs = Ok tt ->
  (if Z.land flags NET_SI_USE_SSL =? 0 then ret tt else lift hs) sk = (Ok tt, sk).
Proof.
  intros [H|H]; [rewrite H; reflexivity|subst hs].
  destruct (_ =? 0); reflexivity.
Qed.

(** [recv_packet] on a complete frame whose length prefix is right. *)
Lemma recv_packet_frame (body rest outb : list Z) :
  4 + Z.of_nat (List.length body) < 2 ^ 32 ->
  recv_packet
    (mk_sock (u32_bytes (4 + Z.of_nat (List.length body)) ++ body ++ rest) outb)
  = (Ok (u32_bytes (4 + Z.of_nat (List.length body)) ++ body),
     mk_sock rest outb).
Proof.
  intros Hb; set (h := u32_bytes _).
  assert (Hh : List.length h = 4%nat) by reflexivity.
  unfold recv_packet.
  erewrite bind_ok.
  2:{ unfold recv_exact; cbn [inbound sent].
      change (Z.to_nat 4) with 4%nat.
      assert (E1 : firstn 4 (h ++ body ++ rest) = h)
        by exact (proj1 (take_app h _)).
      assert (E2 : skipn 4 (h ++ body ++ rest) = body ++ rest)
        by exact (proj2 (take_app h _)).
      rewrite E1, E2.
      rewrite (proj2 (Nat.leb_le _ _)) by (rewrite length_app; lia).
      reflexivity. }
  erewrite bind_ok.
  2:{ unfold recv_exact; cbn [inbound sent].
      unfold h; rewrite le_value_u32_bytes by lia.
      replace (4 + Z.of_nat (List.length body) - 4) with
        (Z.of_nat (List.length body)) by lia.
      rewrite Nat2Z.id, (proj1 (take_app body _)), (proj2 (take_app body _)).
      rewrite (proj2 (Nat.leb_le _ _)) by (rewrite length_app; lia).
      reflexivity. }
  reflexivity.
Qed.

(** [recv_packet] reads the 4-byte header and as many bytes as it says. *)
Lemma recv_packet_ok (h body rest outb : list Z) :
  List.length h = 4%nat ->
  Z.to_nat (le_value h - 4) = List.length body ->
  recv_packet (mk_sock (h ++ body ++ rest) outb)
  = (Ok (h ++ body), mk_sock rest outb).
Proof.
  intros Hh Hb; unfold recv_packet.
  rewrite (bind_ok _ _ _ h (mk_sock (body ++ rest) outb)).
  2:{ unfold recv_exact; cbn [inbound sent].
      change (Z.to_nat 4) with 4%nat; rewrite <- Hh.
      rewrite (proj1 (take_app h _)), (proj2 (take_app h _)).
      rewrite (proj2 (Nat.leb_le _ _)) by (rewrite length_app; lia).
      reflexivity. }
  rewrite (bind_ok _ _ _ body (mk_sock rest outb)); [reflexivity|].
  unfold recv_exact; cbn [inbound sent]; rewrite Hb.
  rewrite (proj1 (take_app body _)), (proj2 (take_app body _)).
  rewrite (proj2 (Nat.leb_le _ _)) by (rewrite length_app; lia).
  reflexivity.
Qed.

Lemma parse_whats_up_frame (h vb s : list Z) (flags : Z) :
  List.length h = 4%nat -> List.length vb = 4%nat ->
  parse_whats_up (h ++ NET_SVM_WHATS_UP :: flags :: vb ++ s)
  = Ok (flags, le_value vb, decode_ignore s).
Proof.
  intros Hh Hv.
  destruct h as [|? [|? [|? [|? [|]]]]]; try discriminate.
  destruct vb as [|? [|? [|? [|? [|]]]]]; try discriminate.
  reflexivity.
Qed.

Lemma pack_u32_ok (x : Z) : 0 <= x < 2 ^ 32 -> pack_u32 x = Ok (u32_bytes x).
Proof.
  intros Hx; unfold pack_u32.
  rewrite (proj2 (Z.leb_le 0 x)), (proj2 (Z.ltb_lt x _)) by lia; reflexivity.
Qed.

Lemma utf8_step_not_surrogate (s r : list Z) (c : Z) :
  utf8_step s = Some (c, r) -> is_surrogate c = false.
Proof.
  intros H; unfold utf8_step, cont in H.
  destruct s as [|b0 [|b1 [|b2 [|b3 r']]]]; [discriminate| | | |];
    cbv zeta in H; repeat (case_if_in H; try discriminate);
    injection H as <- <-;
    repeat (bool_to_prop;
            try match goal with
                | E : context [if ?c then _ else _] |- _ =>
                    destruct c eqn:?; cbn beta iota in E
                end);
    unfold is_surrogate; apply andb_false_iff;
    repeat match goal with
           | |- context [?a <=? ?b] => destruct (Z.leb_spec a b)
           end;
    first [left; reflexivity | right; reflexivity | exfalso; lia].
Qed.

Lemma decode_ignore_fuel_no_surrogate (n : nat) (s : list Z) :
  existsb is_surrogate (decode_ignore_fuel n s) = false.
Proof.
  revert s; induction n as [|n IH]; intros s; [reflexivity|].
  destruct s as [|b s']; [reflexivity|]; cbn [decode_ignore_fuel].
  destruct (utf8_step (b :: s')) as [[c r]|] eqn:Hs; [|apply IH].
  cbn [existsb]; rewrite (utf8_step_not_surrogate _ _ _ Hs), IH; reflexivity.
Qed.

(** [decode(errors="ignore")] never yields a surrogate, so [str.encode()]
    of its result does not raise. *)
Lemma encode_decode_ignore_ok (s : list Z) :
  encode (decode_ignore s) = Ok (utf8_bytes (decode_ignore s)).
Proof.
  unfold encode, decode_ignore; rewrite decode_ignore_fuel_no_surrogate; reflexivity.
Qed.

Lemma encode_username : encode LISTING_USERNAME = Ok (utf8_bytes LISTING_USERNAME).
Proof. reflexivity. Qed.

Lemma build_listing_request_echo (vb s : list Z) :
  List.length vb = 4%nat -> Forall (fun b => 0 <= b < 256) vb ->
  utf8_valid s = true -> Z.of_nat (List.length s) < 2 ^ 32 - 20 ->
  build_listing_request (le_value vb) (decode_ignore s)
  = Ok (u32_bytes (4 + Z.of_nat (List.length (listing_payload vb s)))
        ++ listing_payload vb s).
Proof.
  intros Hv Hr Hs Hl.
  destruct vb as [|b0 [|b1 [|b2 [|b3 [|]]]]]; try discriminate.
  repeat match goal with H : Forall _ (_ :: _) |- _ => inversion H; subst; clear H end.
  unfold build_listing_request.
  rewrite pack_u32_ok by (cbn [le_value]; lia).
  rewrite u32_bytes_le_value by assumption.
  rewrite encode_decode_ignore_ok, encode_decode_ignore by exact Hs.
  rewrite encode_username.
  rewrite pack_u32_ok; [reflexivity|].
  unfold listing_payload; rewrite !length_app; cbn [List.length].
  change (List.length (utf8_bytes LISTING_USERNAME)) with 9%nat; lia.
Qed.

(** C8 (as the code has it): for a greeting carrying the version bytes [vb]
    and a network-version byte string [s] that is valid UTF-8 and shorter
    than [2^32 - 20] bytes (so that the request fits its ["<I"] length
    prefix), when the greeting's flags do not ask for TLS or the TLS
    handshake succeeds, [query_dss] sends the listing request
    [LISTING, vb, s, NUL, 1, "__dsslist"] with its length prefix: [vb] and
    [s] are echoed byte for byte.  (Bytes of [s] that are not UTF-8 are
    dropped by [decode(errors="ignore")] before the echo.) *)
Theorem listing_request_echo (hs : result unit) (vb s rest : list Z) (flags : Z) :
  List.length vb = 4%nat -> Forall (fun b => 0 <= b < 256) vb ->
  utf8_valid s = true -> Z.of_nat (List.length s) < 2 ^ 32 - 20 ->
  Z.land flags NET_SI_USE_SSL = 0 \/ hs = Ok tt ->
  snd (run_query hs
         (u32_bytes (4 + Z.of_nat
                      (List.length (NET_SVM_WHATS_UP :: flags :: vb ++ s)))
          ++ (NET_SVM_WHATS_UP :: flags :: vb ++ s) ++ rest))
  = u32_bytes (4 + Z.of_nat (List.length (listing_payload vb s)))
    ++ listing_payload vb s.
Proof.
  intros Hv Hr Hs Hl Htls.
  set (body := NET_SVM_WHATS_UP :: flags :: vb ++ s).
  assert (Hbl : Z.of_nat (List.length body) = 6 + Z.of_nat (List.length s)).
  { unfold body; cbn [List.length]; rewrite length_app, Hv; lia. }
  rewrite run_query_sent; unfold query_dss.
  rewrite (bind_ok _ _ _ _ _ (recv_packet_ok
    (u32_bytes (4 + Z.of_nat (List.length body))) body rest [] eq_refl ltac:(
    rewrite le_value_u32_bytes by lia; lia))).
  cbv beta.
  rewrite (bind_ok _ _ _ (flags, le_value vb, decode_ignore s) (mk_sock rest [])).
  2:{ unfold body; rewrite parse_whats_up_frame by (exact Hv || reflexivity).
      reflexivity. }
  cbv beta iota.
  rewrite (bind_ok _ _ _ tt (mk_sock rest [])) by (apply tls_step_ok; exact Htls).
  rewrite (bind_ok _ _ _
    (u32_bytes (4 + Z.of_nat (List.length (listing_payload vb s)))
     ++ listing_payload vb s) (mk_sock rest [])).
  2:{ rewrite build_listing_request_echo by assumption; reflexivity. }
  rewrite (bind_ok _ _ _ tt (mk_sock rest ([] ++
    (u32_bytes (4 + Z.of_nat (List.length (listing_payload vb s)))
     ++ listing_payload vb s)))) by reflexivity.
  rewrite (keeps_sent_bind _ _ keeps_sent_recv_packet
             (fun _ => keeps_sent_lift _)).
  reflexivity.
Qed.

(** X19: if the greeting frame is complete and its message-type byte
    (byte 4) is not [WHATS_UP], [query_dss] raises
    [ValueError("Expected WHATS_UP")] and sends nothing, whatever a TLS
    handshake would have done. *)
Theorem query_dss_rejects_bad_greeting (hs : result unit) (h rest : list Z) (t : Z) :
  List.length h = 4%nat -> 5 <= le_value h ->
  (Z.to_nat (le_value h - 4) <= List.length (t :: rest))%nat ->
  t <> NET_SVM_WHATS_UP ->
  run_query hs (h ++ t :: rest) = (Err (ValueError "Expected WHATS_UP"), []).
Proof.
  intros Hh H5 Hk Ht.
  remember (Z.to_nat (le_value h - 4)) as k eqn:Ek.
  assert (Hk1 : (1 <= k)%nat) by lia.
  rewrite <- (firstn_skipn k (t :: rest)).
  destruct k as [|k']; [lia|].
  cbn [firstn skipn].
  unfold run_query, query_dss.
  rewrite (bind_ok _ _ _ _ _ (recv_packet_ok h (t :: firstn k' rest)
             (skipn k' rest) [] Hh ltac:(
               rewrite <- Ek; cbn [List.length];
               rewrite firstn_length_le; cbn [List.length] in Hk; lia))).
  cbv beta.
  rewrite (bind_err _ _ _ (ValueError "Expected WHATS_UP") (mk_sock (skipn k' rest) [])).
  2:{ unfold parse_whats_up.
      rewrite skipn_app, Hh, Nat.sub_diag, skipn_all2 by lia; cbn [app skipn].
      rewrite (proj2 (Z.eqb_neq t NET_SVM_WHATS_UP) Ht); reflexivity. }
  reflexivity.
Qed.

End ProtocolFacts.

(** * Concrete runs: witnesses and counterexamples *)

Module Runs.
Import Servers Protocol Samples StoreFacts ProtocolFacts.

Lemma add_server_source_sticky_witness :
  get_server db_fav (str "10.0.0.1") 7777 = Some row_fav
  /\ exists r',
       get_server (fst (add_server db_fav (str "10.0.0.1") 7777
                          (str "dynamic") false false None 9 9))
         (str "10.0.0.1") 7777 = Some r'
       /\ source r' = str "favorite".
Proof.
  split; [reflexivity|].
  destruct (add_server_source_sticky db_fav (str "10.0.0.1") 7777
              (str "dynamic") false false None 9 9 row_fav eq_refl)
    as [r' [Hg [Hfav _]]].
  exists r'; split; [exact Hg|].
  apply Hfav; [reflexivity|left; reflexivity].
Defined.



(** C4: an add with [website=""] replaces the stored "a.org". *)
Lemma add_server_empty_website_replaces :
  option_map website (get_server db_fav (str "10.0.0.1") 7777)
    = Some (Some (str "a.org"))
  /\ option_map website
       (get_server (fst (add_server db_fav (str "10.0.0.1") 7777
                           (str "dynamic") false false (Some []) 9 9))
          (str "10.0.0.1") 7777)
     = Some (Some []).
Proof. split; reflexivity. Qed.

Lemma add_server_website_coalesce_witness :
  get_server db_fav (str "10.0.0.1") 7777 = Some row_fav
  /\ exists r',
       get_server (fst (add_server db_fav (str "10.0.0.1") 7777
                          (str "dynamic") false false (Some (str "b.org")) 9 9))
         (str "10.0.0.1") 7777 = Some r'
       /\ website r' = Some (str "b.org").
Proof.
  split; [reflexivity|].
  destruct (add_server_website_coalesce db_fav (str "10.0.0.1") 7777
              (str "dynamic") false false (Some (str "b.org")) 9 9 row_fav
              eq_refl) as [r' [Hg [_ [_ Hw]]]].
  exists r'; split; [exact Hg|apply Hw; reflexivity].
Defined.

Lemma add_server_frame_witness :
  get_server db_fav (str "10.0.0.1") 7777 = Some row_fav
  /\ exists r',
       get_server (fst (add_server db_fav (str "10.0.0.1") 7777
                          (str "manual") false true None 9 9))
         (str "10.0.0.1") 7777 = Some r'
       /\ name r' = Some (str "Alpha") /\ query_failures r' = 2.
Proof.
  split; [reflexivity|].
  destruct (add_server_frame db_fav (str "10.0.0.1") 7777
              (str "manual") false true None 9 9 row_fav eq_refl)
    as [_ [r' [Hg [_ [_ [_ [Hn [_ [_ [_ [_ [_ [Hq _]]]]]]]]]]]]].
  exists r'; split; [exact Hg|]; rewrite Hn, Hq; split; reflexivity.
Defined.

(** C5: [query_dss] run on a greeting with flags 0 followed by a listing
    response whose message-type byte is 7, not [LIST_SERVER]: the response
    is parsed and returned as a listing instead of being rejected. *)
Theorem query_dss_accepts_bad_listing_type :
  nth 4 response_bad_type 0 <> NET_SVM_LIST_SERVER
  /\ forall hs : result unit,
       fst (run_query hs (greeting_1_0 ++ response_bad_type))
       = Ok (mk_listing (str "A") [] [] 5 20 []).
Proof. split; [discriminate|intros hs; reflexivity]. Qed.

Lemma query_dss_rejects_bad_greeting_witness :
  5 <= le_value [13; 0; 0; 0]
  /\ run_query (Ok tt) greeting_bad_type = (Err (ValueError "Expected WHATS_UP"), []).
Proof.
  split; [cbn; lia|].
  exact (query_dss_rejects_bad_greeting (Ok tt) [13; 0; 0; 0] [0; 3; 0; 0; 0; 49; 46; 48]
           7 eq_refl ltac:(cbn; lia) ltac:(cbn; lia)
           ltac:(unfold NET_SVM_WHATS_UP; lia)).
Defined.

(** C8: the network-version bytes [b"\xff"] are not echoed: the request
    holds no byte 255 at all, only the NUL. *)
Lemma listing_request_drops_non_utf8 :
  snd (run_query (Ok tt) greeting_ff)
  = [20; 0; 0; 0; 0; 3; 0; 0; 0; 0; 1; 95; 95; 100; 115; 115; 108; 105; 115; 116]
  /\ ~ In 255 (snd (run_query (Ok tt) greeting_ff)).
Proof.
  assert (H : snd (run_query (Ok tt) greeting_ff)
              = [20; 0; 0; 0; 0; 3; 0; 0; 0; 0; 1; 95; 95; 100; 115; 115; 108;
                 105; 115; 116]) by reflexivity.
  split; [exact H|]; rewrite H; cbn; lia.
Qed.

Lemma listing_request_echo_witness :
  utf8_valid (str "1.0") = true
  /\ snd (run_query (Ok tt) greeting_tls_1_0)
     = [23; 0; 0; 0; 0; 3; 0; 0; 0; 49; 46; 48; 0; 1;
        95; 95; 100; 115; 115; 108; 105; 115; 116].
Proof.
  split; [reflexivity|].
  exact (listing_request_echo (Ok tt) [3; 0; 0; 0] (str "1.0") [] 1 eq_refl
           ltac:(repeat constructor; lia) eq_refl ltac:(cbn; lia)
           (or_intror eq_refl)).
Defined.

End Runs.

(** * Further properties of the server store *)

Module StoreExtra.
Import Servers StoreFacts.

Lemma key_is_true ip0 port0 r :
  key_is ip0 port0 r = true <-> key r = (ip0, port0).
Proof.
  unfold key_is, key; rewrite andb_true_iff, text_eqb_eq, Z.eqb_eq; split.
  - intros [-> ->]; reflexivity.
  - intros H; injection H as -> ->; split; reflexivity.
Qed.

Lemma key_is_key a b r1 r2 : key r1 = key r2 -> key_is a b r1 = key_is a b r2.
Proof. unfold key, key_is; intros H; injection H as -> ->; reflexivity. Qed.

Lemma get_server_some st ip0 port0 r :
  get_server st ip0 port0 = Some r -> In r (rows st) /\ key r = (ip0, port0).
Proof.
  intros H; destruct (find_some _ _ H) as [Hin Hk].
  split; [exact Hin|apply key_is_true; exact Hk].
Qed.

Lemma get_none_not_in st ip0 port0 :
  get_server st ip0 port0 = None -> ~ In (ip0, port0) (map key (rows st)).
Proof.
  intros H Hin; apply in_map_iff in Hin; destruct Hin as [r [Hk Hr]].
  pose proof (get_none_no_key _ _ _ H r Hr) as Hf.
  apply key_is_true in Hk; congruence.
Qed.

Lemma nodup_map_filter (p : row -> bool) (l : list row) :
  NoDup (map key l) -> NoDup (map key (filter p l)).
Proof.
  induction l as [|a l IH]; simpl; intros H; [constructor|].
  inversion H as [|x y Hnin Hnd]; subst.
  destruct (p a); simpl; [constructor|]; auto.
  intros Hin; apply Hnin; apply in_map_iff in Hin; destruct Hin as [x [Hx Hin]].
  apply filter_In in Hin; apply in_map_iff; exists x; split; [exact Hx|apply Hin].
Qed.

Lemma find_app_rows (p : row -> bool) (l1 l2 : list row) :
  find p (l1 ++ l2) = match find p l1 with Some x => Some x | None => find p l2 end.
Proof. induction l1 as [|a l1 IH]; simpl; [reflexivity|]; destruct (p a); auto. Qed.

Lemma find_map_fix (p : row -> bool) (g : row -> row) (l : list row) :
  (forall r, p r = true -> g r = r) -> (forall r, p (g r) = p r) ->
  find p (map g l) = find p l.
Proof.
  intros Hg Hp; induction l as [|a l IH]; simpl; [reflexivity|].
  rewrite Hp; destruct (p a) eqn:E; [rewrite Hg by exact E; reflexivity|exact IH].
Qed.

Lemma find_map_guarded (p p' : row -> bool) (f : row -> row) (l : list row) :
  (forall r, p' r = true -> p r = true) -> (forall r, p (f r) = p r) ->
  find p (map (fun r => if p' r then f r else r) l)
  = option_map (fun r => if p' r then f r else r) (find p l).
Proof.
  intros Himp Hf; induction l as [|a l IH]; simpl; [reflexivity|].
  destruct (p' a) eqn:E'.
  - rewrite Hf, (Himp a E'); simpl; rewrite E'; reflexivity.
  - destruct (p a) eqn:E; simpl; [rewrite E'; reflexivity|exact IH].
Qed.

Lemma nodup_key_unique (l : list row) x y :
  NoDup (map key l) -> In x l -> In y l -> key x = key y -> x = y.
Proof.
  induction l as [|a l IH]; simpl; intros Hn Hx Hy Hk; [contradiction|].
  inversion Hn as [|k ks Hnin Hnd]; subst.
  destruct Hx as [<-|Hx], Hy as [<-|Hy]; auto.
  - exfalso; apply Hnin; rewrite Hk; apply in_map; exact Hy.
  - exfalso; apply Hnin; rewrite <- Hk; apply in_map; exact Hx.
Qed.

Lemma nodup_get_server st r :
  NoDup (map key (rows st)) -> In r (rows st) ->
  get_server st (ip r) (port r) = Some r.
Proof.
  intros Hn Hr; destruct (get_server st (ip r) (port r)) eqn:E.
  - apply get_server_some in E; destruct E as [Hin Hk]; f_equal.
    apply (nodup_key_unique _ _ _ Hn Hin Hr); rewrite Hk; reflexivity.
  - exfalso; apply (get_none_not_in _ _ _ E).
    apply in_map_iff; exists r; split; [reflexivity|exact Hr].
Qed.

(** An [UPDATE] confined to the rows of one key leaves the lookup of every
    other key alone. *)
Lemma get_update_other (p : row -> bool) (f : row -> row) st ip0 port0 ip1 port1 :
  (forall r, p r = true -> key r = (ip0, port0)) ->
  (forall r, key (f r) = key r) ->
  (ip1, port1) <> (ip0, port0) ->
  get_server (update_where p f st) ip1 port1 = get_server st ip1 port1.
Proof.
  intros Hp Hf Hne; unfold get_server, update_where; cbn [rows].
  apply find_map_fix.
  - intros r Hr; destruct (p r) eqn:E; [|reflexivity].
    apply Hp in E; apply key_is_true in Hr; congruence.
  - intros r; destruct (p r); [apply key_is_key, Hf|reflexivity].
Qed.

Lemma add_server_new st ip0 port0 src tr im web now added :
  get_server st ip0 port0 = None ->
  let r := mk_row (next_id st) ip0 port0 None None None None None None
             web src tr im (Some now) None 0 added in
  add_server st ip0 port0 src tr im web now added
  = (mk_db (rows st ++ [r]) (next_id st + 1), next_id st)
  /\ get_server (fst (add_server st ip0 port0 src tr im web now added)) ip0 port0
     = Some r.
Proof.
  intros H r.
  assert (He : add_server st ip0 port0 src tr im web now added
               = (mk_db (rows st ++ [r]) (next_id st + 1), next_id st))
    by (unfold add_server; rewrite H; reflexivity).
  split; [exact He|rewrite He].
  assert (Hk : key_is ip0 port0 r = true) by (apply key_is_true; reflexivity).
  clearbody r; unfold get_server; cbn [fst rows]; rewrite find_app_rows.
  unfold get_server in H; rewrite H; cbn [find]; rewrite Hk; reflexivity.
Qed.

Lemma insert_sorted_sorted (r : row) (l : list row) :
  (forall a b, goes_before a b = true -> goes_before b a = false) ->
  Sorted (fun a b => goes_before b a = false) l ->
  Sorted (fun a b => goes_before b a = false) (insert_sorted r l).
Proof.
  intros Hasym; induction l as [|y l IH]; intros H; simpl.
  - repeat constructor.
  - destruct (goes_before r y) eqn:E.
    + constructor; [exact H|constructor; apply Hasym; exact E].
    + apply Sorted_inv in H; destruct H as [Hl Hh].
      constructor; [apply IH; exact Hl|].
      destruct l as [|z l']; simpl; [constructor; exact E|].
      destruct (goes_before r z); constructor; [exact E|].
      inversion Hh; assumption.
Qed.

Lemma goes_before_asym a b : goes_before a b = true -> goes_before b a = false.
Proof.
  unfold goes_before, bool_lt, opt_lt.
  destruct (important a), (important b), (trusted a), (trusted b),
    (players a) as [x|], (players b) as [y|]; simpl; intros H;
    try discriminate; try reflexivity;
    apply Z.ltb_lt in H; apply Z.ltb_ge; lia.
Qed.

Lemma order_by_sorted (l : list row) :
  Sorted (fun a b => goes_before b a = false) (order_by l).
Proof.
  induction l as [|r l IH]; simpl; [constructor|].
  apply insert_sorted_sorted; [exact goes_before_asym|exact IH].
Qed.

(** X1: every write of [ServerManager] keeps [(ip, port)] a key: if no two
    rows share one before, none do after [add_server], [update_server_info],
    [mark_query_failure], [set_favorite], [remove_server] or
    [cleanup_failed_servers]. *)
Theorem writes_keep_keys_unique st ip0 port0 src tr im web si now added b N :
  NoDup (map key (rows st)) ->
  NoDup (map key (rows (fst (add_server st ip0 port0 src tr im web now added))))
  /\ NoDup (map key (rows (update_server_info st ip0 port0 si now)))
  /\ NoDup (map key (rows (mark_query_failure st ip0 port0 now)))
  /\ NoDup (map key (rows (set_favorite st ip0 port0 b)))
  /\ NoDup (map key (rows (remove_server st ip0 port0)))
  /\ NoDup (map key (rows (fst (cleanup_failed_servers st N)))).
Proof.
  intros Hn; split; [|split; [|split; [|split; [|split]]]].
  - unfold add_server; destruct (get_server st ip0 port0) eqn:E; cbn [fst].
    + cbn [rows]; rewrite update_where_keys by reflexivity; exact Hn.
    + cbn [rows]; rewrite map_app; cbn [map].
      apply (Permutation_NoDup (Permutation_cons_append _ _)).
      constructor; [|exact Hn]; apply get_none_not_in; exact E.
  - unfold update_server_info; rewrite update_where_keys by reflexivity; exact Hn.
  - unfold mark_query_failure; rewrite update_where_keys by reflexivity; exact Hn.
  - unfold set_favorite; destruct b; rewrite update_where_keys by reflexivity;
      exact Hn.
  - apply nodup_map_filter; exact Hn.
  - apply nodup_map_filter; exact Hn.
Qed.

(** X2: [add_server] on a key with no row appends one row: its id is the
    value of the AUTOINCREMENT counter (which is returned, and which the call
    advances by one); it holds the given source, flags and website,
    [last_seen = now], [added_date] the [CURRENT_TIMESTAMP] of the insert, no
    queried data and [query_failures = 0]; the lookup of every other key is
    unchanged. *)
Theorem add_server_inserts st ip0 port0 src tr im web now added :
  get_server st ip0 port0 = None ->
  snd (add_server st ip0 port0 src tr im web now added) = next_id st
  /\ next_id (fst (add_server st ip0 port0 src tr im web now added)) = next_id st + 1
  /\ get_server (fst (add_server st ip0 port0 src tr im web now added)) ip0 port0
     = Some (mk_row (next_id st) ip0 port0 None None None None None None
               web src tr im (Some now) None 0 added)
  /\ (forall ip1 port1, (ip1, port1) <> (ip0, port0) ->
      get_server (fst (add_server st ip0 port0 src tr im web now added)) ip1 port1
      = get_server st ip1 port1).
Proof.
  intros H; destruct (add_server_new st ip0 port0 src tr im web now added H)
    as [He Hg].
  split; [rewrite He; reflexivity|].
  split; [rewrite He; reflexivity|split; [exact Hg|]].
  intros ip1 port1 Hne; rewrite He; unfold get_server; cbn [fst rows].
  rewrite find_app_rows; destruct (find _ (rows st)); [reflexivity|].
  cbn [find]; destruct (key_is ip1 port1 _) eqn:E; [|reflexivity].
  apply key_is_true in E; unfold key in E; cbn in E; congruence.
Qed.

(** X3: [set_favorite(ip, port, True)] makes an existing row [favorite];
    [set_favorite(ip, port, False)] turns a [favorite] row into [manual] and
    leaves any other source as it is; no other column of the row and no
    other key's row changes. *)
Theorem set_favorite_effect st ip0 port0 b r :
  get_server st ip0 port0 = Some r ->
  get_server (set_favorite st ip0 port0 b) ip0 port0
  = Some (with_source
            (if b then str "favorite"
             else if text_eqb (source r) (str "favorite") then str "manual"
             else source r) r)
  /\ (forall ip1 port1, (ip1, port1) <> (ip0, port0) ->
      get_server (set_favorite st ip0 port0 b) ip1 port1
      = get_server st ip1 port1).
Proof.
  intros H; split.
  - unfold set_favorite; destruct b; unfold get_server, update_where; cbn [rows].
    + rewrite find_map_guarded; [|auto|reflexivity].
      unfold get_server in H; rewrite H; simpl.
      apply find_some in H; destruct H as [_ Hk]; rewrite Hk; reflexivity.
    + rewrite find_map_guarded;
        [|intros r' Hr'; apply andb_prop in Hr'; apply Hr'|reflexivity].
      unfold get_server in H; rewrite H; cbn [option_map].
      apply find_some in H; destruct H as [_ Hk]; rewrite Hk; cbn [andb].
      destruct (text_eqb (source r) (str "favorite")); [reflexivity|].
      destruct r; reflexivity.
  - intros ip1 port1 Hne; unfold set_favorite; destruct b;
      apply (get_update_other _ _ _ ip0 port0); try reflexivity; try exact Hne.
    + intros r' Hr'; apply key_is_true; exact Hr'.
    + intros r' Hr'; apply andb_prop in Hr'; apply key_is_true, Hr'.
Qed.

Lemma find_filter_key (q p : row -> bool) (l : list row) :
  (forall r, q r = true -> p r = false) ->
  find q (filter (fun r => negb (p r)) l) = find q l.
Proof.
  intros H; induction l as [|a l IH]; simpl; [reflexivity|].
  destruct (q a) eqn:Eq.
  - rewrite (H a Eq); simpl; rewrite Eq; reflexivity.
  - destruct (p a); simpl; [exact IH|rewrite Eq; exact IH].
Qed.

Lemma goes_before_trans a b c :
  goes_before b a = false -> goes_before c b = false -> goes_before c a = false.
Proof.
  unfold goes_before, bool_lt, opt_lt.
  destruct (important a), (important b), (important c),
    (trusted a), (trusted b), (trusted c),
    (players a) as [x|], (players b) as [y|], (players c) as [z|];
    simpl; intros H1 H2; try reflexivity; try discriminate;
    apply Z.ltb_ge in H1; apply Z.ltb_ge in H2 || idtac;
    apply Z.ltb_ge; lia.
Qed.

Lemma order_by_strongly_sorted (l : list row) :
  StronglySorted (fun a b => goes_before b a = false) (order_by l).
Proof.
  apply Sorted_StronglySorted; [|apply order_by_sorted].
  intros a b c H1 H2; exact (goes_before_trans a b c H1 H2).
Qed.

(** X4: after [remove_server(ip, port)] the key has no row, and the lookup
    of every other key is unchanged. *)
Theorem remove_server_effect st ip0 port0 :
  get_server (remove_server st ip0 port0) ip0 port0 = None
  /\ (forall ip1 port1, (ip1, port1) <> (ip0, port0) ->
      get_server (remove_server st ip0 port0) ip1 port1
      = get_server st ip1 port1).
Proof.
  split.
  - unfold get_server, remove_server; cbn [rows].
    induction (rows st) as [|a l IH]; simpl; [reflexivity|].
    destruct (key_is ip0 port0 a) eqn:E; simpl; [exact IH|rewrite E; exact IH].
  - intros ip1 port1 Hne; unfold get_server, remove_server; cbn [rows].
    apply find_filter_key; intros r H1; destruct (key_is ip0 port0 r) eqn:E;
      [|reflexivity].
    apply key_is_true in H1; apply key_is_true in E; congruence.
Qed.

(** X5: [get_all_servers(source_filter)] returns each stored row exactly
    once: all of them when the filter is [None] or the empty string (both
    falsy in Python), otherwise exactly those whose source equals it. *)
Theorem get_all_servers_rows st (source_filter : option text) :
  Permutation (get_all_servers st source_filter)
    (match source_filter with
     | Some f => if text_eqb f [] then rows st
                 else filter (fun r => text_eqb (source r) f) (rows st)
     | None => rows st
     end).
Proof.
  unfold get_all_servers; destruct source_filter as [f|];
    [destruct (text_eqb f [])|]; apply order_by_perm.
Qed.

(** X6: [get_all_servers] and [search_servers] return their rows in the
    order of [ORDER BY important DESC, trusted DESC, players DESC]: no row
    is listed after a row that it sorts strictly before. *)
Theorem listings_ordered st (source_filter : option text) (query : text) :
  StronglySorted (fun a b => goes_before b a = false)
    (get_all_servers st source_filter)
  /\ StronglySorted (fun a b => goes_before b a = false)
       (search_servers st query).
Proof.
  split; [unfold get_all_servers; destruct source_filter as [f|];
          [destruct (text_eqb f [])|]|unfold search_servers];
    apply order_by_strongly_sorted.
Qed.

End StoreExtra.

(** * Further properties of the DSS protocol client *)

Module ProtocolExtra.
Import Protocol ProtocolFacts.

Lemma index0_from_app (s rest : list Z) (i : nat) :
  ~ In 0 s -> index0_from (s ++ 0 :: rest) i = Some (i + List.length s)%nat.
Proof.
  revert i; induction s as [|b s IH]; intros i Hs; cbn [app index0_from].
  - rewrite Nat.add_0_r; reflexivity.
  - destruct (b =? 0) eqn:E; [apply Z.eqb_eq in E; subst; exfalso; apply Hs; left; reflexivity|].
    rewrite IH by (intros H; apply Hs; right; exact H).
    cbn [List.length]; f_equal; lia.
Qed.

Lemma index0_from_none (s : list Z) (i : nat) :
  ~ In 0 s -> index0_from s i = None.
Proof.
  revert i; induction s as [|b s IH]; intros i Hs; cbn [index0_from]; [reflexivity|].
  destruct (b =? 0) eqn:E; [apply Z.eqb_eq in E; subst; exfalso; apply Hs; left; reflexivity|].
  apply IH; intros H; apply Hs; right; exact H.
Qed.

Lemma read_cstring_at (buf pre s rest : list Z) (off : nat) :
  buf = pre ++ s ++ 0 :: rest -> off = List.length pre -> ~ In 0 s ->
  read_cstring buf off = Ok (decode_ignore s, S (off + List.length s)).
Proof.
  intros -> -> Hs; unfold read_cstring.
  rewrite (proj2 (take_app pre _)), index0_from_app by exact Hs.
  replace (List.length pre + List.length s - List.length pre)%nat
    with (List.length s) by lia.
  rewrite (proj1 (take_app s _)); reflexivity.
Qed.

Lemma unpack_from_at (w : nat) (buf pre x rest : list Z) (off : nat) :
  buf = pre ++ x ++ rest -> off = List.length pre -> List.length x = w ->
  unpack_from w buf off = Ok (le_value x).
Proof.
  intros -> -> <-; unfold unpack_from.
  rewrite (proj2 (Nat.leb_le _ _)) by (rewrite !length_app; lia).
  rewrite (proj2 (take_app pre _)), (proj1 (take_app x _)); reflexivity.
Qed.

Lemma unpack_from_short (w : nat) (buf : list Z) (off : nat) :
  (List.length buf < off + w)%nat -> unpack_from w buf off = Err StructError.
Proof.
  intros H; unfold unpack_from.
  destruct (Nat.leb (off + w) (List.length buf)) eqn:E; [|reflexivity].
  apply Nat.leb_le in E; lia.
Qed.

Lemma skipn_at (buf pre rest : list Z) (off : nat) :
  buf = pre ++ rest -> off = List.length pre -> skipn off buf = rest.
Proof. intros -> ->; exact (proj2 (take_app pre rest)). Qed.

Ltac solve_len :=
  subst; repeat progress (rewrite ?length_app; cbn [List.length]); lia.

(** The three NUL-terminated strings at the head of a [LIST_SERVER] body. *)
Lemma read_three_cstrings (name info news rest : list Z)
    (K : text -> text -> text -> nat -> result listing) :
  ~ In 0 name -> ~ In 0 info -> ~ In 0 news ->
  let buf := name ++ 0 :: info ++ 0 :: news ++ 0 :: rest in
  rbind (read_cstring buf 0) (fun '(nm, off) =>
  rbind (read_cstring buf off) (fun '(inf, off) =>
  rbind (read_cstring buf off) (fun '(nws, off) => K nm inf nws off)))
  = K (decode_ignore name) (decode_ignore info) (decode_ignore news)
      (List.length (name ++ 0 :: info ++ 0 :: news ++ [0])).
Proof.
  intros Hn Hi Hs buf.
  erewrite (read_cstring_at buf [] name); [|reflexivity|reflexivity|exact Hn].
  cbn [rbind].
  erewrite (read_cstring_at buf (name ++ [0]) info);
    [|unfold buf; rewrite <- app_assoc; reflexivity|solve_len|exact Hi].
  cbn [rbind].
  erewrite (read_cstring_at buf (name ++ 0 :: info ++ [0]) news);
    [|unfold buf; rewrite <- app_assoc; cbn [app]; rewrite <- app_assoc;
      reflexivity|solve_len|exact Hs].
  cbn [rbind]; f_equal; solve_len.
Qed.

(** X7: [parse_list_server] reads back what a server lays out: after the
    5-byte header, three NUL-terminated strings (decoded with
    [errors="ignore"]), the icon size as ["<I"], that many icon bytes and the
    two ["<H"] player counts; trailing bytes are ignored. *)
Theorem parse_list_server_fields (hdr name info news icon pb mb trailer : list Z) :
  List.length hdr = 5%nat -> ~ In 0 name -> ~ In 0 info -> ~ In 0 news ->
  Z.of_nat (List.length icon) < 2 ^ 32 ->
  List.length pb = 2%nat -> List.length mb = 2%nat ->
  parse_list_server
    (hdr ++ name ++ 0 :: info ++ 0 :: news ++ 0 ::
     u32_bytes (Z.of_nat (List.length icon)) ++ icon ++ pb ++ mb ++ trailer)
  = Ok (mk_listing (decode_ignore name) (decode_ignore info)
          (decode_ignore news) (le_value pb) (le_value mb) icon).
Proof.
  intros Hh Hn Hi Hs Hic Hp Hm; unfold parse_list_server.
  rewrite (skipn_at _ hdr _ 5 eq_refl (eq_sym Hh)).
  rewrite read_three_cstrings by assumption.
  set (pre := name ++ 0 :: info ++ 0 :: news ++ [0]).
  set (sb := u32_bytes (Z.of_nat (List.length icon))).
  set (buf := name ++ 0 :: info ++ 0 :: news ++ 0 :: sb ++ icon ++ pb ++ mb ++ trailer).
  assert (Hb : buf = pre ++ sb ++ icon ++ pb ++ mb ++ trailer)
    by (unfold buf, pre; rewrite <- app_assoc; cbn [app];
        rewrite <- app_assoc; cbn [app]; rewrite <- app_assoc; reflexivity).
  assert (Hsb : le_value sb = Z.of_nat (List.length icon))
    by (apply le_value_u32_bytes; lia).
  assert (Hl : List.length sb = 4%nat) by reflexivity.
  clearbody sb buf.
  rewrite (unpack_from_at 4 buf pre sb _ _ Hb eq_refl Hl); cbn [rbind].
  rewrite Hsb, Nat2Z.id.
  rewrite (skipn_at buf (pre ++ sb) (icon ++ pb ++ mb ++ trailer))
    by (rewrite ?Hb, <- ?app_assoc; solve_len || reflexivity).
  rewrite (proj1 (take_app icon _)).
  rewrite (unpack_from_at 2 buf (pre ++ sb ++ icon) pb (mb ++ trailer))
    by (rewrite ?Hb, <- ?app_assoc; solve_len || reflexivity || exact Hp).
  cbn [rbind].
  rewrite (unpack_from_at 2 buf (pre ++ sb ++ icon ++ pb) mb trailer)
    by (rewrite ?Hb, <- ?app_assoc; solve_len || reflexivity || exact Hm).
  reflexivity.
Qed.

Lemma unpack_from_err (w : nat) (buf : list Z) (off : nat) (e : exn) :
  unpack_from w buf off = Err e -> e = StructError.
Proof.
  unfold unpack_from; destruct (Nat.leb _ _); intros H; [discriminate|].
  injection H as <-; reflexivity.
Qed.

Lemma recv_exact_short (n : Z) (b outb : list Z) :
  (List.length b < Z.to_nat n)%nat ->
  recv_exact n (mk_sock b outb) = (Err ConnectionError, mk_sock [] outb).
Proof.
  intros H; unfold recv_exact; cbn [inbound sent].
  destruct (Nat.leb (Z.to_nat n) (List.length b)) eqn:E; [|reflexivity].
  apply Nat.leb_le in E; lia.
Qed.

(** [query_dss] stops at a failed first [recv_packet]. *)
Lemma query_dss_greeting_err (hs : result unit) (b : list Z) (e : exn) (s' : sock) :
  recv_packet (mk_sock b []) = (Err e, s') -> sent s' = [] ->
  run_query hs b = (Err e, []).
Proof.
  intros H Hs; unfold run_query, query_dss.
  rewrite (bind_err _ _ _ e s' H); cbn; rewrite Hs; reflexivity.
Qed.

(** [query_dss] stops when [parse_whats_up] raises on the greeting. *)
Lemma query_dss_parse_err (hs : result unit) (h body rest : list Z) (e : exn) :
  List.length h = 4%nat ->
  Z.to_nat (le_value h - 4) = List.length body ->
  parse_whats_up (h ++ body) = Err e ->
  run_query hs (h ++ body ++ rest) = (Err e, []).
Proof.
  intros Hh Hb Hp; unfold run_query, query_dss.
  rewrite (bind_ok _ _ _ _ _ (recv_packet_ok h body rest [] Hh Hb)).
  rewrite (bind_err _ _ _ e (mk_sock rest [])); [reflexivity|].
  unfold lift; rewrite Hp; reflexivity.
Qed.

(** X8: [parse_list_server] raises [struct.error] when the bytes after the
    icon-size field are fewer than the icon size plus the two 2-byte player
    counts. *)
Theorem parse_list_server_truncated (hdr name info news sb tail : list Z) :
  List.length hdr = 5%nat -> ~ In 0 name -> ~ In 0 info -> ~ In 0 news ->
  List.length sb = 4%nat ->
  (List.length tail < Z.to_nat (le_value sb) + 4)%nat ->
  parse_list_server (hdr ++ name ++ 0 :: info ++ 0 :: news ++ 0 :: sb ++ tail)
  = Err StructError.
Proof.
  intros Hh Hn Hi Hs Hl Ht; unfold parse_list_server.
  rewrite (skipn_at _ hdr _ 5 eq_refl (eq_sym Hh)).
  rewrite read_three_cstrings by assumption.
  set (pre := name ++ 0 :: info ++ 0 :: news ++ [0]).
  set (buf := name ++ 0 :: info ++ 0 :: news ++ 0 :: sb ++ tail).
  assert (Hb : buf = pre ++ sb ++ tail)
    by (unfold buf, pre; rewrite <- app_assoc; cbn [app];
        rewrite <- app_assoc; cbn [app]; rewrite <- app_assoc; reflexivity).
  clearbody buf pre.
  rewrite (unpack_from_at 4 buf pre sb _ _ Hb eq_refl Hl); cbn [rbind].
  destruct (unpack_from 2 buf _) as [x|e] eqn:E; cbn [rbind].
  - rewrite unpack_from_short; [reflexivity|rewrite Hb; solve_len].
  - f_equal; exact (unpack_from_err _ _ _ _ E).
Qed.

(** X9: [parse_list_server] raises [ValueError] ([bytes.index]: "subsection
    not found") when the body after the 5-byte header holds no NUL byte. *)
Theorem parse_list_server_no_terminator (pkt : list Z) :
  ~ In 0 (skipn 5 pkt) ->
  parse_list_server pkt = Err (ValueError "subsection not found").
Proof.
  intros H; unfold parse_list_server, read_cstring; cbn [skipn].
  rewrite index0_from_none by exact H; reflexivity.
Qed.

(** X10: for a version that fits ["<I"] and a network version that holds
    no surrogate code point ([str.encode()] succeeds) and whose UTF-8
    encoding leaves the whole request under 2^32 bytes (the length prefix is
    a ["<I"] too), [build_listing_request] succeeds; the
    4-byte little-endian prefix of the request is its total length, followed
    by the LISTING type byte, the version, the encoded network version and a
    NUL, a 1 and the encoded ["__dsslist"]. *)
Theorem build_listing_request_frame (version : Z) (netver : text) :
  0 <= version < 2 ^ 32 -> existsb is_surrogate netver = false ->
  Z.of_nat (List.length (utf8_bytes netver)) < 2 ^ 32 - 20 ->
  exists req,
    build_listing_request version netver = Ok req
    /\ le_value (firstn 4 req) = Z.of_nat (List.length req)
    /\ skipn 4 req = [NET_MSG_LISTING] ++ u32_bytes version ++ utf8_bytes netver
                     ++ [0; 1] ++ utf8_bytes LISTING_USERNAME.
Proof.
  intros Hv Hsur Hn; unfold build_listing_request.
  rewrite pack_u32_ok by exact Hv.
  unfold encode at 1; rewrite Hsur; rewrite encode_username.
  set (payload := [NET_MSG_LISTING] ++ u32_bytes version ++ (utf8_bytes netver ++ [0])
                  ++ [1] ++ utf8_bytes LISTING_USERNAME).
  assert (Hp : Z.of_nat (List.length payload) < 2 ^ 32 - 4).
  { unfold payload; rewrite !length_app; cbn [List.length u32_bytes].
    change (List.length (utf8_bytes LISTING_USERNAME)) with 9%nat; lia. }
  rewrite pack_u32_ok by lia.
  exists (u32_bytes (4 + Z.of_nat (List.length payload)) ++ payload).
  split; [reflexivity|split].
  - change 4%nat with (List.length (u32_bytes (4 + Z.of_nat (List.length payload)))) at 1.
    rewrite (proj1 (take_app _ _)), le_value_u32_bytes by lia.
    rewrite length_app; cbn [List.length u32_bytes]; lia.
  - change 4%nat with (List.length (u32_bytes (4 + Z.of_nat (List.length payload)))).
    rewrite (proj2 (take_app _ _)); unfold payload; rewrite <- !app_assoc; reflexivity.
Qed.

(** X11: [build_listing_request] raises [struct.error] when the version
    does not fit ["<I"], whatever the network version. *)
Theorem build_listing_request_bad_version (version : Z) (netver : text) :
  version < 0 \/ 2 ^ 32 <= version ->
  build_listing_request version netver = Err StructError.
Proof.
  intros Hv; unfold build_listing_request, pack_u32.
  destruct ((0 <=? version) && (version <? 2 ^ 32)) eqn:E; [|reflexivity].
  apply andb_prop in E; destruct E as [E1 E2].
  apply Z.leb_le in E1; apply Z.ltb_lt in E2; lia.
Qed.

(** X12: when the stream ends before the end of the greeting frame (fewer
    than 4 bytes, or fewer than the declared length), [query_dss] raises
    [ConnectionError] ("Connection closed") and sends nothing. *)
Theorem query_dss_truncated_greeting (hs : result unit) (b : list Z) :
  (List.length b < 4
   \/ 4 <= List.length b
      /\ List.length b - 4 < Z.to_nat (le_value (firstn 4 b) - 4))%nat ->
  run_query hs b = (Err ConnectionError, []).
Proof.
  intros H; unfold recv_packet.
  destruct H as [H|[H1 H2]].
  - apply (query_dss_greeting_err _ _ _ (mk_sock [] [])); [|reflexivity].
    unfold recv_packet; apply bind_err, recv_exact_short; exact H.
  - apply (query_dss_greeting_err _ _ _ (mk_sock [] [])); [|reflexivity].
    unfold recv_packet.
    rewrite (bind_ok _ _ _ (firstn 4 b) (mk_sock (skipn 4 b) [])).
    2:{ unfold recv_exact; cbn [inbound sent]; change (Z.to_nat 4) with 4%nat.
        rewrite (proj2 (Nat.leb_le _ _)) by exact H1; reflexivity. }
    apply bind_err, recv_exact_short; rewrite length_skipn; exact H2.
Qed.

(** X13: a greeting frame whose declared length is at most 4 (no body)
    makes [query_dss] raise [IndexError] ([msg[0]] on an empty message) and
    send nothing. *)
Theorem query_dss_empty_greeting (hs : result unit) (h rest : list Z) :
  List.length h = 4%nat -> le_value h <= 4 ->
  run_query hs (h ++ rest) = (Err IndexError, []).
Proof.
  intros Hh Hle.
  apply (query_dss_parse_err hs h [] rest IndexError Hh); [cbn [List.length]; lia|].
  unfold parse_whats_up; rewrite app_nil_r, skipn_all2 by lia; reflexivity.
Qed.

(** X14: a WHATS_UP greeting with fewer than 5 bytes after its type byte
    makes [query_dss] raise before sending anything: [IndexError] when the
    flags byte is missing, [struct.error] when the 4-byte version is cut
    short. *)
Theorem query_dss_short_whats_up (hs : result unit) (h more rest : list Z) :
  List.length h = 4%nat ->
  Z.to_nat (le_value h - 4) = S (List.length more) ->
  (List.length more < 5)%nat ->
  run_query hs (h ++ (NET_SVM_WHATS_UP :: more) ++ rest)
  = (Err (match more with [] => IndexError | _ :: _ => StructError end), []).
Proof.
  intros Hh Hb Hm.
  apply query_dss_parse_err; [exact Hh|exact Hb|].
  unfold parse_whats_up.
  rewrite skipn_app, Hh, Nat.sub_diag, skipn_all2 by lia; cbn [app skipn].
  destruct more as [|f m]; [reflexivity|].
  cbn [negb Z.eqb NET_SVM_WHATS_UP Pos.eqb].
  rewrite unpack_from_short; [reflexivity|cbn [List.length] in *; lia].
Qed.

(** X20: when the greeting's flags ask for TLS ([NET_SI_USE_SSL] set) and
    [ctx.wrap_socket] raises [e], [query_dss] raises [e] and sends nothing. *)
Theorem query_dss_tls_failure (e : exn) (vb s rest : list Z) (flags : Z) :
  List.length vb = 4%nat -> Z.of_nat (List.length s) < 2 ^ 32 - 10 ->
  Z.land flags NET_SI_USE_SSL <> 0 ->
  run_query (Err e)
    (u32_bytes (4 + Z.of_nat (List.length (NET_SVM_WHATS_UP :: flags :: vb ++ s)))
     ++ (NET_SVM_WHATS_UP :: flags :: vb ++ s) ++ rest)
  = (Err e, []).
Proof.
  intros Hv Hl Hf.
  set (body := NET_SVM_WHATS_UP :: flags :: vb ++ s).
  assert (Hbl : Z.of_nat (List.length body) = 6 + Z.of_nat (List.length s)).
  { unfold body; cbn [List.length]; rewrite length_app, Hv; lia. }
  unfold run_query, query_dss.
  rewrite (bind_ok _ _ _ _ _ (recv_packet_ok
    (u32_bytes (4 + Z.of_nat (List.length body))) body rest [] eq_refl ltac:(
    rewrite le_value_u32_bytes by lia; lia))).
  cbv beta.
  rewrite (bind_ok _ _ _ (flags, le_value vb, decode_ignore s) (mk_sock rest [])).
  2:{ unfold body; rewrite parse_whats_up_frame by (exact Hv || reflexivity).
      reflexivity. }
  cbv beta iota.
  rewrite (bind_err _ _ _ e (mk_sock rest [])); [reflexivity|].
  rewrite (proj2 (Z.eqb_neq _ 0) Hf); reflexivity.
Qed.

(** X21: [build_listing_request] raises [UnicodeEncodeError] ([str.encode()])
    when the network version holds a surrogate code point and the version
    fits ["<I"]. *)
Theorem build_listing_request_surrogate (version : Z) (netver : text) :
  0 <= version < 2 ^ 32 -> existsb is_surrogate netver = true ->
  build_listing_request version netver = Err UnicodeEncodeError.
Proof.
  intros Hv Hs; unfold build_listing_request.
  rewrite pack_u32_ok by exact Hv.
  unfold encode at 1; rewrite Hs; reflexivity.
Qed.

End ProtocolExtra.

(** * Further properties of dynamic discovery *)

Module DiscoveryExtra.
Import Servers Protocol Discovery StoreFacts StoreExtra.

Lemma perm_filter_rows (f : row -> bool) (l l' : list row) :
  Permutation l l' -> Permutation (filter f l) (filter f l').
Proof.
  induction 1 as [|x l l' _ IH|x y l|l l' l'' _ IH1 _ IH2]; simpl.
  - constructor.
  - destruct (f x); [apply perm_skip|]; exact IH.
  - destruct (f x), (f y); try constructor; reflexivity.
  - eapply perm_trans; eassumption.
Qed.

Lemma filter_split_length (f : row -> bool) (l : list row) :
  (List.length (filter f l) + List.length (filter (fun r => negb (f r)) l)
   = List.length l)%nat.
Proof.
  induction l as [|a l IH]; simpl; [reflexivity|].
  destruct (f a); simpl; lia.
Qed.

Lemma loop_facts servers query now st sc fc :
  let '(st', sc', fc') := revalidate_loop servers query now st sc fc in
  map key (rows st') = map key (rows st) /\ next_id st' = next_id st
  /\ sc' = sc + Z.of_nat (List.length (filter (query_ok query) servers))
  /\ fc' = fc + Z.of_nat (List.length
                 (filter (fun r => negb (query_ok query r)) servers)).
Proof.
  revert st sc fc; induction servers as [|a l IH]; intros st sc fc.
  - cbn; refine (conj eq_refl (conj eq_refl (conj _ _))); lia.
  - assert (Hqa : query_ok query a
                  = match query (ip a) (port a) with Ok _ => true | Err _ => false end)
      by reflexivity.
    cbn [revalidate_loop filter].
    destruct (query (ip a) (port a)) as [si|e]; rewrite Hqa; cbn [negb List.length].
    + specialize (IH (update_server_info st (ip a) (port a) (to_server_info si) now)
                    (sc + 1) fc).
      destruct (revalidate_loop _ _ _ _ _ _) as [[st' sc'] fc'].
      destruct IH as [Hk [Hn [Hs Hf]]].
      refine (conj _ (conj Hn (conj _ _))); [|lia|lia].
      rewrite Hk; unfold update_server_info; apply update_where_keys; reflexivity.
    + specialize (IH (mark_query_failure st (ip a) (port a) now) sc (fc + 1)).
      destruct (revalidate_loop _ _ _ _ _ _) as [[st' sc'] fc'].
      destruct IH as [Hk [Hn [Hs Hf]]].
      refine (conj _ (conj Hn (conj _ _))); [|lia|lia].
      rewrite Hk; unfold mark_query_failure; apply update_where_keys; reflexivity.
Qed.

Lemma loop_get_other servers query now st sc fc ip1 port1 :
  ~ In (ip1, port1) (map key servers) ->
  get_server (fst (fst (revalidate_loop servers query now st sc fc))) ip1 port1
  = get_server st ip1 port1.
Proof.
  revert st sc fc; induction servers as [|a l IH]; intros st sc fc Hn; simpl;
    [reflexivity|].
  assert (Ha : (ip1, port1) <> (ip a, port a))
    by (intros E; apply Hn; left; rewrite E; reflexivity).
  assert (Hl : ~ In (ip1, port1) (map key l)) by (intros H; apply Hn; right; exact H).
  destruct (query (ip a) (port a)); rewrite IH by exact Hl;
    apply (get_update_other _ _ _ (ip a) (port a)); try reflexivity; try exact Ha;
    intros r Hr; apply key_is_true; exact Hr.
Qed.

Lemma loop_get_in servers query now st sc fc r0 :
  NoDup (map key servers) -> In (key r0) (map key servers) ->
  get_server st (ip r0) (port r0) = Some r0 ->
  get_server (fst (fst (revalidate_loop servers query now st sc fc)))
    (ip r0) (port r0)
  = Some (revalidated_row query now r0).
Proof.
  revert st sc fc; induction servers as [|a l IH]; intros st sc fc Hnd Hin Hg;
    [contradiction|].
  inversion Hnd as [|k ks Hnin Hnd']; subst.
  cbn [revalidate_loop].
  destruct (key_is (ip r0) (port r0) a) eqn:Ek.
  - apply key_is_true in Ek.
    assert (Hip : ip a = ip r0) by (injection Ek; auto).
    assert (Hport : port a = port r0) by (injection Ek; auto).
    unfold revalidated_row; rewrite Hip, Hport.
    destruct (query (ip r0) (port r0)) as [si|e];
      (rewrite loop_get_other; [|rewrite <- Ek; exact Hnin]);
      [unfold update_server_info|unfold mark_query_failure];
      rewrite get_update_where by reflexivity; rewrite Hg; reflexivity.
  - destruct Hin as [Ha|Hin].
    + exfalso; assert (key_is (ip r0) (port r0) a = true)
        by (apply key_is_true; rewrite Ha; reflexivity); congruence.
    + assert (Hne : (ip r0, port r0) <> (ip a, port a)).
      { intros E; assert (key_is (ip r0) (port r0) a = true)
          by (apply key_is_true; rewrite E; reflexivity); congruence. }
      destruct (query (ip a) (port a)); apply IH; try assumption;
        unfold update_server_info, mark_query_failure;
        rewrite (get_update_other _ _ _ (ip a) (port a)); try reflexivity;
        try exact Hne; try exact Hg;
        intros r Hr; apply key_is_true; exact Hr.
Qed.

Lemma iter_mark_get st ip0 port0 now r (k : nat) :
  get_server st ip0 port0 = Some r ->
  get_server (Nat.iter k (fun s => mark_query_failure s ip0 port0 now) st)
    ip0 port0 = Some (Nat.iter k (failure_row now) r).
Proof.
  intros H; induction k as [|k IH]; [exact H|].
  rewrite Nat.iter_succ; cbv beta; set (s0 := Nat.iter k _ st) in *; unfold mark_query_failure.
  rewrite get_update_where by reflexivity; rewrite IH; reflexivity.
Qed.

Lemma iter_mark_keys st ip0 port0 now (k : nat) :
  map key (rows (Nat.iter k (fun s => mark_query_failure s ip0 port0 now) st))
  = map key (rows st).
Proof.
  induction k as [|k IH]; [reflexivity|].
  rewrite Nat.iter_succ; cbv beta; set (s0 := Nat.iter k _ st) in *; unfold mark_query_failure.
  rewrite update_where_keys by reflexivity; exact IH.
Qed.

Lemma iter_failure_row now r (k : nat) :
  source (Nat.iter k (failure_row now) r) = source r
  /\ query_failures (Nat.iter k (failure_row now) r)
     = query_failures r + Z.of_nat k.
Proof.
  induction k as [|k IH]; [cbn; split; [reflexivity|lia]|].
  rewrite Nat.iter_succ; destruct IH as [Hs Hq]; unfold failure_row at 1 3.
  cbn [source query_failures]; split; [exact Hs|lia].
Qed.

Lemma find_filter_all (q p : row -> bool) (l : list row) :
  (forall r, In r l -> q r = true -> p r = true) ->
  find q (filter (fun r => negb (p r)) l) = None.
Proof.
  induction l as [|a l IH]; intros H; simpl; [reflexivity|].
  destruct (q a) eqn:Eq.
  - rewrite (H a (or_introl eq_refl) Eq); simpl; apply IH.
    intros r Hr; apply H; right; exact Hr.
  - destruct (p a); simpl; [|rewrite Eq]; apply IH;
      intros r Hr; apply H; right; exact Hr.
Qed.

(** X15: when the query succeeds, [validate_and_add_server] returns [True],
    reports [on_server_validated], and leaves one row for the key: the
    existing row's id (else the AUTOINCREMENT counter's value), source
    [favorite] if the row was a favorite and [dynamic] otherwise, the given
    [trusted]/[important],
    the website kept by [COALESCE], the queried name, info, news, player
    counts and icon, [last_seen] the clock reading of [add_server],
    [last_queried] the later one of [update_server_info], no failures, and
    [added_date] kept (else the [CURRENT_TIMESTAMP] of the insert). *)
Theorem validate_success_stores st ip0 port0 tr im web si t_seen t_added t_queried :
  match validate_and_add_server st ip0 port0 tr im web (Ok si)
          t_seen t_added t_queried with
  | (ok, st', evs) =>
      ok = true /\ evs = [ServerValidated ip0 port0 si]
      /\ exists r,
           get_server st' ip0 port0 = Some r
           /\ id r = match get_server st ip0 port0 with
                     | Some r0 => id r0 | None => next_id st end
           /\ source r = match get_server st ip0 port0 with
                         | Some r0 => if text_eqb (source r0) (str "favorite")
                                      then str "favorite" else str "dynamic"
                         | None => str "dynamic" end
           /\ website r = match get_server st ip0 port0 with
                          | Some r0 => coalesce web (website r0)
                          | None => web end
           /\ trusted r = tr /\ important r = im
           /\ name r = Some (l_name si) /\ info r = Some (l_info si)
           /\ news r = Some (l_news si) /\ players r = Some (l_players si)
           /\ max_players r = Some (l_max_players si)
           /\ icon r = Some (l_icon si)
           /\ last_seen r = Some t_seen /\ last_queried r = Some t_queried
           /\ query_failures r = 0
           /\ added_date r = match get_server st ip0 port0 with
                             | Some r0 => added_date r0 | None => t_added end
  end.
Proof.
  unfold validate_and_add_server.
  destruct (get_server st ip0 port0) as [r0|] eqn:E.
  - destruct (add_server_existing st ip0 port0 (str "dynamic") tr im web
                t_seen t_added r0 E) as [Ha Hg].
    rewrite Ha; cbn [fst].
    split; [reflexivity|split; [reflexivity|]].
    unfold update_server_info; rewrite get_update_where by reflexivity.
    rewrite Ha in Hg; cbn [fst] in Hg; rewrite Hg.
    eexists; split; [reflexivity|].
    assert (Hm : merged_source (source r0) (str "dynamic")
                 = if text_eqb (source r0) (str "favorite")
                   then str "favorite" else str "dynamic")
      by (unfold merged_source; reflexivity).
    unfold success_row, upsert_row, to_server_info;
      cbn [id source website trusted important name info news players
           max_players icon last_seen last_queried query_failures added_date
           si_name si_info si_news si_players si_max_players si_icon].
    rewrite Hm; repeat split.
  - destruct (add_server_new st ip0 port0 (str "dynamic") tr im web
                t_seen t_added E) as [Ha Hg].
    rewrite Ha in Hg |- *; cbn [fst] in Hg.
    split; [reflexivity|split; [reflexivity|]].
    unfold update_server_info; rewrite get_update_where by reflexivity.
    rewrite Hg; eexists; split; [reflexivity|].
    repeat split; reflexivity.
Qed.

(** X16: [revalidate_all_servers] queries every stored row once: the
    returned [success_count] is the number of rows whose query succeeded,
    [success_count + failed_count] is the number of rows, and no row is
    added or removed (same keys, in the same order, same next id). *)
Theorem revalidate_counts st query now :
  match revalidate_all_servers st query now with
  | (st', (success_count, failed_count)) =>
      map key (rows st') = map key (rows st) /\ next_id st' = next_id st
      /\ success_count = Z.of_nat (List.length (filter (query_ok query) (rows st)))
      /\ success_count + failed_count = Z.of_nat (List.length (rows st))
  end.
Proof.
  unfold revalidate_all_servers.
  pose proof (loop_facts (get_all_servers st None) query now st 0 0) as H.
  destruct (revalidate_loop _ _ _ _ _ _) as [[st' sc] fc].
  destruct H as [Hk [Hn [Hs Hf]]].
  pose proof (get_all_servers_rows st None) as Hp; cbn iota in Hp.
  pose proof (Permutation_length (perm_filter_rows (query_ok query) _ _ Hp)) as H1.
  pose proof (Permutation_length
                (perm_filter_rows (fun r => negb (query_ok query r)) _ _ Hp)) as H2.
  pose proof (filter_split_length (query_ok query) (rows st)) as H3.
  repeat split; [exact Hk|exact Hn|lia|lia].
Qed.

(** X17: in a table whose keys are unique, after [revalidate_all_servers]
    each stored row has had exactly one update: [update_server_info] with
    its query's answer if the query succeeded, [mark_query_failure]
    otherwise. *)
Theorem revalidate_row_effect st query now r :
  NoDup (map key (rows st)) -> In r (rows st) ->
  get_server (fst (revalidate_all_servers st query now)) (ip r) (port r)
  = Some (match query (ip r) (port r) with
          | Ok si => success_row (to_server_info si) now r
          | Err _ => failure_row now r
          end).
Proof.
  intros Hn Hr.
  pose proof (get_all_servers_rows st None) as Hp; cbn iota in Hp.
  assert (Hloop : fst (revalidate_all_servers st query now)
                  = fst (fst (revalidate_loop (get_all_servers st None)
                                query now st 0 0))).
  { unfold revalidate_all_servers.
    destruct (revalidate_loop _ _ _ _ _ _) as [[? ?] ?]; reflexivity. }
  rewrite Hloop.
  change (Some _) with (Some (revalidated_row query now r)).
  apply loop_get_in.
  - apply (Permutation_NoDup (Permutation_map key (Permutation_sym Hp))); exact Hn.
  - apply in_map, (Permutation_in _ (Permutation_sym Hp)); exact Hr.
  - apply nodup_get_server; assumption.
Qed.

(** X18: a [dynamic] server marked failed [k] more times (by failed
    re-validations) reaches any [max_failures] up to its old failure count
    plus [k]; [cleanup_failed_servers(max_failures)] then deletes its row
    and lists its key among the removed ones. *)
Theorem failures_then_cleanup st ip0 port0 now r (k : nat) (max_failures : Z) :
  NoDup (map key (rows st)) ->
  get_server st ip0 port0 = Some r -> source r = str "dynamic" ->
  max_failures <= query_failures r + Z.of_nat k ->
  let st' := Nat.iter k (fun s => mark_query_failure s ip0 port0 now) st in
  In (ip0, port0) (snd (cleanup_failed_servers st' max_failures))
  /\ get_server (fst (cleanup_failed_servers st' max_failures)) ip0 port0 = None.
Proof.
  intros Hn Hg Hs Hle st'.
  pose proof (iter_mark_get st ip0 port0 now r k Hg) as Hg'; fold st' in Hg'.
  destruct (iter_failure_row now r k) as [Hs' Hq'].
  set (r' := Nat.iter k (failure_row now) r) in *.
  assert (Hev : evictable max_failures r' = true)
    by (apply evictable_iff; split; [congruence|lia]).
  destruct (get_server_some _ _ _ _ Hg') as [Hin Hk].
  assert (Hn' : NoDup (map key (rows st')))
    by (unfold st'; rewrite iter_mark_keys; exact Hn).
  split.
  - cbn [snd cleanup_failed_servers]; rewrite <- Hk; apply in_map, filter_In.
    split; assumption.
  - unfold get_server, cleanup_failed_servers; cbn [fst rows].
    apply find_filter_all; intros x Hx Hkx.
    apply key_is_true in Hkx.
    rewrite (nodup_key_unique _ x r' Hn' Hx Hin); [exact Hev|congruence].
Qed.

End DiscoveryExtra.

(** * Concrete runs of the further properties *)

Module RunsExtra.
Import Servers Protocol Discovery Samples SamplesExtra
  StoreExtra ProtocolExtra DiscoveryExtra.

Ltac nodup_keys :=
  repeat constructor; cbv -[not]; intros H;
  repeat match type of H with _ \/ _ => destruct H as [H|H] end;
  try discriminate H; try contradiction.

Lemma writes_keep_keys_unique_witness :
  NoDup (map key (rows db_two))
  /\ NoDup (map key (rows (fst (add_server db_two (str "10.0.0.3") 7777
                                  (str "manual") false false None 9 9)))).
Proof.
  assert (H : NoDup (map key (rows db_two))) by nodup_keys.
  exact (conj H (proj1 (writes_keep_keys_unique db_two (str "10.0.0.3") 7777
           (str "manual") false false None (mk_info None None None None None None)
           9 9 true 5 H))).
Defined.

Lemma add_server_inserts_witness :
  get_server db_two (str "10.0.0.3") 7777 = None
  /\ snd (add_server db_two (str "10.0.0.3") 7777 (str "manual") false false
            None 9 9) = 3.
Proof.
  split; [reflexivity|].
  exact (proj1 (add_server_inserts db_two (str "10.0.0.3") 7777 (str "manual")
                  false false None 9 9 eq_refl)).
Defined.

Lemma set_favorite_effect_witness :
  get_server db_fav (str "10.0.0.1") 7777 = Some row_fav
  /\ get_server (set_favorite db_fav (str "10.0.0.1") 7777 false)
       (str "10.0.0.1") 7777 = Some (with_source (str "manual") row_fav).
Proof.
  split; [reflexivity|].
  exact (proj1 (set_favorite_effect db_fav (str "10.0.0.1") 7777 false row_fav
                  eq_refl)).
Defined.

Lemma parse_list_server_fields_witness :
  ~ In 0 (str "A")
  /\ parse_list_server [9; 0; 0; 0; 2; 65; 0; 0; 0; 1; 0; 0; 0; 7; 4; 0; 10; 0]
     = Ok (mk_listing (str "A") [] [] 4 10 [7]).
Proof.
  assert (HA : ~ In 0 (str "A")) by (cbv; intros [H|[]]; discriminate H).
  split; [exact HA|].
  exact (parse_list_server_fields [9; 0; 0; 0; 2] (str "A") [] [] [7]
           [4; 0] [10; 0] [] eq_refl HA (fun H => H) (fun H => H)
           ltac:(cbn; lia) eq_refl eq_refl).
Defined.

Lemma parse_list_server_truncated_witness :
  lt (List.length [1; 2; 3; 5; 0]) (Nat.add (Z.to_nat (le_value [3; 0; 0; 0])) 4)
  /\ parse_list_server [12; 0; 0; 0; 2; 65; 0; 0; 0; 3; 0; 0; 0; 1; 2; 3; 5; 0]
     = Err StructError.
Proof.
  assert (HA : ~ In 0 (str "A")) by (cbv; intros [H|[]]; discriminate H).
  assert (Hl : lt (List.length [1; 2; 3; 5; 0]) (Nat.add (Z.to_nat (le_value [3; 0; 0; 0])) 4))
    by (cbn; lia).
  split; [exact Hl|].
  exact (parse_list_server_truncated [12; 0; 0; 0; 2] (str "A") [] []
           [3; 0; 0; 0] [1; 2; 3; 5; 0] eq_refl HA (fun H => H) (fun H => H)
           eq_refl Hl).
Defined.

Lemma parse_list_server_no_terminator_witness :
  ~ In 0 (skipn 5 [9; 0; 0; 0; 2; 65; 66])
  /\ parse_list_server [9; 0; 0; 0; 2; 65; 66]
     = Err (ValueError "subsection not found").
Proof.
  assert (H : ~ In 0 (skipn 5 [9; 0; 0; 0; 2; 65; 66]))
    by (cbv; intros [E|[E|[]]]; discriminate E).
  exact (conj H (parse_list_server_no_terminator _ H)).
Defined.

Lemma build_listing_request_frame_witness :
  existsb is_surrogate (str "1.0") = false
  /\ Z.of_nat (List.length (utf8_bytes (str "1.0"))) < 2 ^ 32 - 20
  /\ exists req,
       build_listing_request 3 (str "1.0") = Ok req
       /\ le_value (firstn 4 req) = Z.of_nat (List.length req)
       /\ skipn 4 req = [NET_MSG_LISTING] ++ u32_bytes 3 ++ utf8_bytes (str "1.0")
                        ++ [0; 1] ++ utf8_bytes LISTING_USERNAME.
Proof.
  assert (H : Z.of_nat (List.length (utf8_bytes (str "1.0"))) < 2 ^ 32 - 20)
    by (vm_compute; reflexivity).
  exact (conj eq_refl
           (conj H (build_listing_request_frame 3 (str "1.0") ltac:(lia) eq_refl H))).
Defined.

Lemma build_listing_request_bad_version_witness :
  2 ^ 32 <= 2 ^ 32
  /\ build_listing_request (2 ^ 32) (str "1.0") = Err StructError.
Proof.
  split; [lia|].
  exact (build_listing_request_bad_version (2 ^ 32) (str "1.0") ltac:(lia)).
Defined.

Lemma query_dss_truncated_greeting_witness :
  (le 4 (List.length [13; 0; 0; 0; 1; 0])
   /\ lt (Nat.sub (List.length [13; 0; 0; 0; 1; 0]) 4)
        (Z.to_nat (le_value (firstn 4 [13; 0; 0; 0; 1; 0]) - 4)))
  /\ run_query (Ok tt) [13; 0; 0; 0; 1; 0] = (Err ConnectionError, []).
Proof.
  assert (H : le 4 (List.length [13; 0; 0; 0; 1; 0])
               /\ lt (Nat.sub (List.length [13; 0; 0; 0; 1; 0]) 4)
                    (Z.to_nat (le_value (firstn 4 [13; 0; 0; 0; 1; 0]) - 4)))
    by (cbn; lia).
  exact (conj H (query_dss_truncated_greeting (Ok tt) _ (or_intror H))).
Defined.

Lemma query_dss_empty_greeting_witness :
  le_value [4; 0; 0; 0] <= 4
  /\ run_query (Ok tt) ([4; 0; 0; 0] ++ [1; 0]) = (Err IndexError, []).
Proof.
  assert (H : le_value [4; 0; 0; 0] <= 4) by (cbn; lia).
  exact (conj H (query_dss_empty_greeting (Ok tt) [4; 0; 0; 0] [1; 0] eq_refl H)).
Defined.

Lemma query_dss_short_whats_up_witness :
  Z.to_nat (le_value [7; 0; 0; 0] - 4) = S (List.length [0; 3])
  /\ run_query (Ok tt) ([7; 0; 0; 0] ++ (NET_SVM_WHATS_UP :: [0; 3]) ++ [])
     = (Err StructError, []).
Proof.
  split; [reflexivity|].
  exact (query_dss_short_whats_up (Ok tt) [7; 0; 0; 0] [0; 3] [] eq_refl eq_refl
           ltac:(cbn; lia)).
Defined.

Lemma query_dss_tls_failure_witness :
  Z.land 1 NET_SI_USE_SSL <> 0
  /\ run_query (Err SSLError) greeting_tls_1_0 = (Err SSLError, []).
Proof.
  assert (H : Z.land 1 NET_SI_USE_SSL <> 0) by discriminate.
  exact (conj H (query_dss_tls_failure SSLError [3; 0; 0; 0] (str "1.0") [] 1
                   eq_refl ltac:(cbn; lia) H)).
Defined.

Lemma build_listing_request_surrogate_witness :
  existsb is_surrogate [49; 55296] = true
  /\ build_listing_request 3 [49; 55296] = Err UnicodeEncodeError.
Proof.
  exact (conj eq_refl
           (build_listing_request_surrogate 3 [49; 55296] ltac:(lia) eq_refl)).
Defined.

Lemma revalidate_row_effect_witness :
  NoDup (map key (rows db_two)) /\ In row_dyn (rows db_two)
  /\ get_server (fst (revalidate_all_servers db_two query_sample 9))
       (str "10.0.0.2") 7777 = Some (failure_row 9 row_dyn).
Proof.
  assert (Hn : NoDup (map key (rows db_two))) by nodup_keys.
  assert (Hr : In row_dyn (rows db_two)) by (right; left; reflexivity).
  exact (conj Hn (conj Hr (revalidate_row_effect db_two query_sample 9 row_dyn
                             Hn Hr))).
Defined.

Lemma failures_then_cleanup_witness :
  NoDup (map key (rows db_two))
  /\ In (str "10.0.0.2", 7777)
       (snd (cleanup_failed_servers
               (mark_query_failure db_two (str "10.0.0.2") 7777 9) 5)).
Proof.
  assert (Hn : NoDup (map key (rows db_two))) by nodup_keys.
  exact (conj Hn (proj1 (failures_then_cleanup db_two (str "10.0.0.2") 7777 9
                           row_dyn 1 5 Hn eq_refl eq_refl ltac:(cbn; lia)))).
Defined.

End RunsExtra.
